(** * Platform API: request lifecycle of the Go service

    A shallow embedding of the Go packages [config], [middleware],
    [handlers] and of [main], together with the part of the Go runtime
    and of [net/http], [zap], [uuid] and [strconv] that this code calls.

    Go code that mutates shared objects is written in a state-and-panic
    monad over a [World]: the response being written, the logger's
    output, the wall clock, the random source, two small heaps (the
    [statusCode] fields of the logging wrappers and the [atomic.Bool]
    cells of the health handlers) and the history of atomic stores and
    server shutdown calls.  An [http.Handler] is a function from
    a response writer and a request to a computation in that monad, so a
    middleware is a function from handlers to handlers, as in the source.

    Library behaviour is modelled at the level of its documented
    contract: the response writer is [httptest.ResponseRecorder] (first
    [WriteHeader] wins, [Write] implies [WriteHeader(200)], headers are
    snapshotted when the header is written, an invalid status code
    panics).  Headers that the transport adds on its own (a sniffed
    Content-Type, Date, Content-Length) and zap's sampling are outside
    the model.  Header names are kept in canonical MIME form: a literal
    such as "X-Request-ID" stands for its canonical spelling. *)

From Stdlib Require Import ZArith List String Ascii Lia.
From stdpp Require Import base gmap strings list fin_maps pretty.

Local Open Scope Z_scope.

(** ** Go values and text *)

Module Go.

(** A non-nil value of Go's [any]: what a context carries and what
    [panic] is given.  The nil interface is [None] of [option any]. *)
Inductive any : Type :=
| AString (s : string)
| AInt (n : Z)
| AError (msg : string).

Definition dquote : string := String (ascii_of_nat 34) EmptyString.
Definition newline : string := String (ascii_of_nat 10) EmptyString.

(** Values handed to [encoding/json]. *)
#[local] Unset Elimination Schemes.
Inductive JSON : Type :=
| JString (s : string)
| JNumber (n : Z)
| JArray (items : list JSON)
| JObject (fields : list (string * JSON)).
#[local] Set Elimination Schemes.

Fixpoint assoc {A : Type} (k : string) (l : list (string * A)) : option A :=
  match l with
  | [] => None
  | (k', v) :: rest => if String.eqb k k' then Some v else assoc k rest
  end.

(** The member [name] of a JSON object. *)
Definition field (name : string) (v : JSON) : option JSON :=
  match v with
  | JObject fs => assoc name fs
  | _ => None
  end.

Definition Second : Z := 1000000000.

(** What the code takes from the Go runtime and standard library as
    given: time formatting, duration parsing and printing, build
    constants and the text of a stack trace. *)
Class Runtime : Type := {
  time_Format_RFC3339 : Z -> string;
  Duration_Round_Second_String : Z -> string;
  time_ParseDuration : string -> option Z;
  runtime_Version : string;
  runtime_GOOS : string;
  runtime_GOARCH : string;
  debug_Stack : string
}.

End Go.

Export Go.

(** ** zap: levelled, structured log entries *)

Module Zap.

Inductive Level : Type :=
| DebugLevel | InfoLevel | WarnLevel | ErrorLevel | FatalLevel.

Definition level_rank (l : Level) : Z :=
  match l with
  | DebugLevel => -1
  | InfoLevel => 0
  | WarnLevel => 1
  | ErrorLevel => 2
  | FatalLevel => 5
  end.

Inductive FieldValue : Type :=
| FString (s : string)
| FInt (n : Z)
| FDuration (d : Z)
| FAny (v : any)
| FError (e : any).

Record Entry : Type := {
  entry_level : Level;
  entry_msg : string;
  entry_fields : list (string * FieldValue)
}.

(** A logger is its level filter and the kind of encoder it was built
    with; all loggers of one process write to the same output. *)
Record Logger : Type := {
  min_level : Level;
  production : bool
}.

Definition Enabled (lg : Logger) (l : Level) : bool :=
  level_rank (min_level lg) <=? level_rank l.

Definition entry_field (name : string) (e : Entry) : option FieldValue :=
  assoc name (entry_fields e).

Definition is_error (e : Entry) : bool :=
  match entry_level e with ErrorLevel => true | _ => false end.

End Zap.

Export Zap.

(** ** net/http: headers, requests, the recorded response *)

Module Http.

Abbreviation Header := (gmap string (list string)).

Definition header_Get (h : Header) (key : string) : string :=
  match h !! key with
  | Some (v :: _) => v
  | _ => EmptyString
  end.

Definition header_Set (key value : string) (h : Header) : Header :=
  <[key := [value]]> h.

Definition header_Del (key : string) (h : Header) : Header :=
  delete key h.

(** Keys of context values.  [MiddlewareKey] is the unexported type
    [key] of package middleware; no other package can build one. *)
Inductive ctxKey : Type :=
| MiddlewareKey (n : Z)
| ForeignKey (name : string).

Definition ctxKey_eqb (a b : ctxKey) : bool :=
  match a, b with
  | MiddlewareKey n, MiddlewareKey m => n =? m
  | ForeignKey s, ForeignKey t => String.eqb s t
  | _, _ => false
  end.

(** A context is the chain of [WithValue] calls above Background,
    innermost first. *)
Definition Context : Type := list (ctxKey * any).

Definition Background : Context := [].

Definition WithValue (parent : Context) (k : ctxKey) (v : any) : Context :=
  (k, v) :: parent.

Fixpoint Value (ctx : Context) (k : ctxKey) : option any :=
  match ctx with
  | [] => None
  | (k', v) :: parent => if ctxKey_eqb k' k then Some v else Value parent k
  end.

Record Request : Type := {
  Method : string;
  URL_Path : string;
  ReqHeader : Header;
  RemoteAddr : string;
  ReqContext : Context
}.

Definition WithContext (r : Request) (ctx : Context) : Request :=
  {| Method := Method r; URL_Path := URL_Path r; ReqHeader := ReqHeader r;
     RemoteAddr := RemoteAddr r; ReqContext := ctx |}.

Definition UserAgent (r : Request) : string :=
  header_Get (ReqHeader r) "User-Agent".

Definition MethodGet : string := "GET".
Definition MethodOptions : string := "OPTIONS".
Definition StatusOK : Z := 200.
Definition StatusNoContent : Z := 204.
Definition StatusInternalServerError : Z := 500.
Definition StatusServiceUnavailable : Z := 503.

(** One write to the body: raw text, or one document written by a
    [json.Encoder] (its value, kept structured, and the newline that
    [Encode] appends). *)
Inductive Chunk : Type :=
| Bytes (s : string)
| JSONLine (v : JSON).

(** [httptest.ResponseRecorder]. *)
Record Recorder : Type := {
  Code : Z;
  HeaderMap : Header;
  Body : list Chunk;
  wroteHeader : bool;
  snapHeader : option Header
}.

Definition NewRecorder : Recorder :=
  {| Code := 200; HeaderMap := ∅; Body := []; wroteHeader := false;
     snapHeader := None |}.

(** The header of [Recorder.Result()]: the snapshot taken when the
    header was written, or the live map if it never was. *)
Definition Result_Header (rec : Recorder) : Header :=
  match snapHeader rec with
  | Some h => h
  | None => HeaderMap rec
  end.

End Http.

Export Http.

(** ** The world a request runs in, and the monad of Go computations *)

Module Exec.

(** Effects whose order matters to the lifecycle, in program order:
    stores to atomic cells and calls of [Server.Shutdown]. *)
Inductive Effect : Type :=
| Stored (cell : nat) (b : bool)
| ShutdownCalled (timeout : Z).

Record World : Type := {
  response : Recorder;          (* the response under construction *)
  logs : list Entry;            (* what the loggers have written *)
  clock : Z;                    (* wall clock, in nanoseconds *)
  entropy : nat -> Z;           (* bytes still to come from crypto/rand *)
  statusCodes : gmap nat Z;     (* statusCode fields of responseWriter values *)
  atomics : gmap nat bool;      (* atomic.Bool cells *)
  history : list Effect         (* effects so far, oldest first *)
}.

Definition set_response (rw : Recorder) (s : World) : World :=
  {| response := rw; logs := logs s; clock := clock s; entropy := entropy s;
     statusCodes := statusCodes s; atomics := atomics s; history := history s |}.

Definition set_logs (l : list Entry) (s : World) : World :=
  {| response := response s; logs := l; clock := clock s; entropy := entropy s;
     statusCodes := statusCodes s; atomics := atomics s; history := history s |}.

Definition set_entropy (e : nat -> Z) (s : World) : World :=
  {| response := response s; logs := logs s; clock := clock s; entropy := e;
     statusCodes := statusCodes s; atomics := atomics s; history := history s |}.

Definition set_statusCodes (m : gmap nat Z) (s : World) : World :=
  {| response := response s; logs := logs s; clock := clock s; entropy := entropy s;
     statusCodes := m; atomics := atomics s; history := history s |}.

Definition set_atomics (m : gmap nat bool) (s : World) : World :=
  {| response := response s; logs := logs s; clock := clock s; entropy := entropy s;
     statusCodes := statusCodes s; atomics := m; history := history s |}.

Definition add_history (e : Effect) (s : World) : World :=
  {| response := response s; logs := logs s; clock := clock s; entropy := entropy s;
     statusCodes := statusCodes s; atomics := atomics s; history := history s ++ [e] |}.

(** A call either returns or is left by a panic carrying a value. *)
Inductive Outcome (A : Type) : Type :=
| Returned (a : A)
| Panicked (v : any).

Arguments Returned {A} a.
Arguments Panicked {A} v.

Definition M (A : Type) : Type := World -> Outcome A * World.

Definition ret {A : Type} (a : A) : M A := fun s => (Returned a, s).

Definition bind {A B : Type} (m : M A) (f : A -> M B) : M B :=
  fun s =>
    match m s with
    | (Returned a, s') => f a s'
    | (Panicked v, s') => (Panicked v, s')
    end.

Definition panic {A : Type} (v : any) : M A := fun s => (Panicked v, s).

Definition gets {A : Type} (f : World -> A) : M A := fun s => (Returned (f s), s).

Definition modify (f : World -> World) : M unit := fun s => (Returned tt, f s).

(** [defer func() { ... recover() ... }()] around [body]: the deferred
    function runs on every way out of [body]; its call to [recover]
    yields the panic value, if there is one, and stops the panic.  A
    panic of the deferred function itself goes on to the caller. *)
Definition defer_recover (body : M unit) (deferred : option any -> M unit) : M unit :=
  fun s =>
    match body s with
    | (Returned _, s') => deferred None s'
    | (Panicked v, s') => deferred (Some v) s'
    end.

End Exec.

Export Exec.

Declare Scope go_scope.
Delimit Scope go_scope with go.
Notation "x <- c1 ;; c2" := (bind c1 (fun x => c2))
  (at level 100, c1 at next level, right associativity) : go_scope.
Notation "c1 ;; c2" := (bind c1 (fun _ => c2))
  (at level 100, right associativity) : go_scope.
Local Open Scope go_scope.

(** ** Library calls in the monad *)

Module Lib.

(** [http.ResponseWriter]: an interface value is its method set.
    [Header()] returns a reference to a mutable map, which the model
    gives as a reader and an in-place updater. *)
Record ResponseWriter : Type := {
  Header_read : M Header;
  Header_update : (Header -> Header) -> M unit;
  Write : Chunk -> M unit;
  WriteHeader : Z -> M unit
}.

(** [http.Handler], by its method [ServeHTTP]. *)
Definition Handler : Type := ResponseWriter -> Request -> M unit.

Definition upd_HeaderMap (f : Header -> Header) (rw : Recorder) : Recorder :=
  {| Code := Code rw; HeaderMap := f (HeaderMap rw); Body := Body rw;
     wroteHeader := wroteHeader rw; snapHeader := snapHeader rw |}.

Definition checkWriteHeaderCode (code : Z) : M unit :=
  if (code <? 100) || (999 <? code)
  then panic (AString ("invalid WriteHeader code " +:+ pretty code))
  else ret tt.

(** [ResponseRecorder.WriteHeader]: only the first call counts. *)
Definition rec_WriteHeader (code : Z) : M unit :=
  wrote <- gets (fun s => wroteHeader (response s)) ;;
  if wrote then ret tt
  else
    checkWriteHeaderCode code ;;
    modify (fun s =>
      let rw := response s in
      set_response
        {| Code := code; HeaderMap := HeaderMap rw; Body := Body rw;
           wroteHeader := true; snapHeader := Some (HeaderMap rw) |} s).

(** [ResponseRecorder.Write]: writes the header with 200 if none was
    written, then appends to the body. *)
Definition rec_Write (c : Chunk) : M unit :=
  rec_WriteHeader 200 ;;
  modify (fun s =>
    let rw := response s in
    set_response
      {| Code := Code rw; HeaderMap := HeaderMap rw; Body := Body rw ++ [c];
         wroteHeader := wroteHeader rw; snapHeader := snapHeader rw |} s).

Definition recorder : ResponseWriter :=
  {| Header_read := gets (fun s => HeaderMap (response s));
     Header_update := fun f => modify (fun s => set_response (upd_HeaderMap f (response s)) s);
     Write := rec_Write;
     WriteHeader := rec_WriteHeader |}.

(** [http.Error]: sets the plain-text headers, writes the header with
    [code] and prints [error] followed by a newline. *)
Definition http_Error (w : ResponseWriter) (error : string) (code : Z) : M unit :=
  Header_update w (header_Del "Content-Length") ;;
  Header_update w (header_Set "Content-Type" "text/plain; charset=utf-8") ;;
  Header_update w (header_Set "X-Content-Type-Options" "nosniff") ;;
  WriteHeader w code ;;
  Write w (Bytes (error +:+ newline)).

(** [json.NewEncoder(w).Encode(v)]; the error it returns is dropped by
    every caller in this code. *)
Definition json_Encode (w : ResponseWriter) (v : JSON) : M unit :=
  Write w (JSONLine v).

(** The methods of [*zap.Logger]: an entry below the logger's level is
    dropped. *)
Definition log (lg : Logger) (l : Level) (msg : string)
    (fields : list (string * FieldValue)) : M unit :=
  modify (fun s =>
    if Enabled lg l
    then set_logs (logs s ++ [{| entry_level := l; entry_msg := msg;
                                 entry_fields := fields |}]) s
    else s).

Definition logger_Info (lg : Logger) := log lg InfoLevel.
Definition logger_Error (lg : Logger) := log lg ErrorLevel.

(** [atomic.Bool]: a new cell holds false. *)
Definition atomic_New : M nat :=
  fun s =>
    let l := fresh (dom (atomics s)) in
    (Returned l, set_atomics (<[l := false]> (atomics s)) s).

Definition atomic_Store (l : nat) (b : bool) : M unit :=
  modify (fun s => add_history (Stored l b) (set_atomics (<[l := b]> (atomics s)) s)).

Definition atomic_Load (l : nat) : M bool :=
  gets (fun s => default false (atomics s !! l)).

(** [Server.Shutdown(ctx)] as main sees it: the call is made with the
    context's timeout, and the server answers nil when every connection
    drained in time and the context's error otherwise.  Which of the two
    happens is up to the connections in flight: [drained] is given. *)
Definition server_Shutdown (timeout : Z) (drained : option any) : M (option any) :=
  modify (add_history (ShutdownCalled timeout)) ;;
  ret drained.

Definition time_Now : M Z := gets clock.

Definition time_Since (start : Z) : M Z := gets (fun s => clock s - start).

(** Sixteen bytes from crypto/rand: the next sixteen of the tape, which
    moves on. *)
Definition next16 (s : World) : list Z :=
  map (fun i => entropy s i mod 256) (seq 0 16).

Definition rand_Read16 : M (list Z) :=
  fun s => (Returned (next16 s), set_entropy (fun i => entropy s (i + 16)%nat) s).

Definition hexdigit (n : Z) : ascii :=
  nth (Z.to_nat n)
    ["0"; "1"; "2"; "3"; "4"; "5"; "6"; "7"; "8"; "9"; "a"; "b"; "c"; "d"; "e"; "f"]%char
    "0"%char.

Definition hexbyte (b : Z) : string :=
  String (hexdigit (b / 16)) (String (hexdigit (b mod 16)) EmptyString).

Definition hexbytes (bs : list Z) : string :=
  fold_right (fun b acc => hexbyte b +:+ acc) EmptyString bs.

Definition slice (lo hi : nat) (bs : list Z) : list Z :=
  firstn (hi - lo) (skipn lo bs).

(** [UUID.String]: the form 8-4-4-4-12 in lower-case hexadecimal. *)
Definition uuid_String (u : list Z) : string :=
  hexbytes (slice 0 4 u) +:+ "-" +:+ hexbytes (slice 4 6 u) +:+ "-" +:+
  hexbytes (slice 6 8 u) +:+ "-" +:+ hexbytes (slice 8 10 u) +:+ "-" +:+
  hexbytes (slice 10 16 u).

Definition set_byte (i : nat) (f : Z -> Z) (u : list Z) : list Z :=
  match u !! i with
  | Some b => <[i := f b]> u
  | None => u
  end.

(** The version and variant bits that [uuid.NewRandom] sets. *)
Definition version4 (u : list Z) : list Z :=
  set_byte 8 (fun b => Z.lor (Z.land b 63) 128)
    (set_byte 6 (fun b => Z.lor (Z.land b 15) 64) u).

(** [uuid.New]: a version 4 UUID from sixteen random bytes. *)
Definition uuid_New : M (list Z) :=
  u <- rand_Read16 ;;
  ret (version4 u).

End Lib.

Export Lib.

(** ** Package config *)

Module Config.

Record Config : Type := {
  ServiceName : string;
  Version : string;
  Environment : string;
  Port : Z;
  ReadTimeout : Z;
  WriteTimeout : Z;
  IdleTimeout : Z;
  ShutdownTimeout : Z;
  LogLevel : string
}.

(** The process environment, as [os.LookupEnv] sees it. *)
Abbreviation Environ := (gmap string string).

Definition digit_of (c : ascii) : option Z :=
  let n := Z.of_nat (nat_of_ascii c) in
  if (48 <=? n) && (n <=? 57) then Some (n - 48) else None.

Fixpoint parse_digits (s : string) (acc : Z) : option Z :=
  match s with
  | EmptyString => Some acc
  | String c rest =>
      match digit_of c with
      | Some d => parse_digits rest (acc * 10 + d)
      | None => None
      end
  end.

(** [strconv.Atoi] on a platform whose [int] has 64 bits: an optional
    sign and at least one decimal digit, in range; [None] stands for a
    non-nil error. *)
Definition Atoi (s : string) : option Z :=
  match s with
  | EmptyString => None
  | String c rest =>
      let neg := Ascii.eqb c "-" in
      let digits := if neg || Ascii.eqb c "+" then rest else s in
      match digits with
      | EmptyString => None
      | _ =>
          match parse_digits digits 0 with
          | Some n =>
              let v := if neg then - n else n in
              if (- 2 ^ 63 <=? v) && (v <? 2 ^ 63) then Some v else None
          | None => None
          end
      end
  end.

Section Loading.

Context `{Runtime}.
Variable env : Environ.

Definition getEnv (key defaultValue : string) : string :=
  match env !! key with
  | Some value => value
  | None => defaultValue
  end.

Definition getEnvInt (key : string) (defaultValue : Z) : Z :=
  match env !! key with
  | Some value =>
      match Atoi value with
      | Some intVal => intVal
      | None => defaultValue
      end
  | None => defaultValue
  end.

Definition getEnvDuration (key : string) (defaultValue : Z) : Z :=
  match env !! key with
  | Some value =>
      match time_ParseDuration value with
      | Some duration => duration
      | None => defaultValue
      end
  | None => defaultValue
  end.

Definition Load : Config :=
  {| ServiceName := getEnv "SERVICE_NAME" "platform-api";
     Version := getEnv "SERVICE_VERSION" "1.0.0";
     Environment := getEnv "ENVIRONMENT" "development";
     Port := getEnvInt "PORT" 9090;
     ReadTimeout := getEnvDuration "READ_TIMEOUT" (5 * Second);
     WriteTimeout := getEnvDuration "WRITE_TIMEOUT" (10 * Second);
     IdleTimeout := getEnvDuration "IDLE_TIMEOUT" (120 * Second);
     ShutdownTimeout := getEnvDuration "SHUTDOWN_TIMEOUT" (30 * Second);
     LogLevel := getEnv "LOG_LEVEL" "info" |}.

End Loading.

End Config.

Export Config.

(** ** Package middleware *)

Module Middleware.

Definition requestIDKey : ctxKey := MiddlewareKey 0.

Definition GetRequestID (ctx : Context) : string :=
  match Value ctx requestIDKey with
  | Some (AString id) => id
  | _ => "unknown"
  end.

Definition RequestID (next : Handler) : Handler :=
  fun w r =>
    let id := header_Get (ReqHeader r) "X-Request-ID" in
    id <- (if String.eqb id EmptyString
           then u <- uuid_New ;; ret (uuid_String u)
           else ret id) ;;
    let ctx := WithValue (ReqContext r) requestIDKey (AString id) in
    Header_update w (header_Set "X-Request-ID" id) ;;
    next w (WithContext r ctx).

(** [responseWriter]: the wrapped writer and the location of the
    [statusCode] field of this value. *)
Record responseWriter : Type := {
  ResponseWriter_ : ResponseWriter;
  statusCode_at : nat
}.

Definition newResponseWriter (w : ResponseWriter) : M responseWriter :=
  fun s =>
    let l := fresh (dom (statusCodes s)) in
    (Returned {| ResponseWriter_ := w; statusCode_at := l |},
     set_statusCodes (<[l := StatusOK]> (statusCodes s)) s).

Definition statusCode (rw : responseWriter) : M Z :=
  gets (fun s => default 0 (statusCodes s !! statusCode_at rw)).

Definition responseWriter_WriteHeader (rw : responseWriter) (code : Z) : M unit :=
  modify (fun s => set_statusCodes (<[statusCode_at rw := code]> (statusCodes s)) s) ;;
  WriteHeader (ResponseWriter_ rw) code.

(** A [*responseWriter] as an [http.ResponseWriter]: [Header] and
    [Write] are promoted from the embedded writer, [WriteHeader] is the
    method above. *)
Definition as_ResponseWriter (rw : responseWriter) : ResponseWriter :=
  {| Header_read := Header_read (ResponseWriter_ rw);
     Header_update := Header_update (ResponseWriter_ rw);
     Write := Write (ResponseWriter_ rw);
     WriteHeader := responseWriter_WriteHeader rw |}.

(** What [Logging] does once the wrapped call has returned. *)
Definition Logging_completed (logger : Logger) (r : Request) (start : Z)
    (wrapped : responseWriter) : M unit :=
  duration <- time_Since start ;;
  status <- statusCode wrapped ;;
  logger_Info logger "request completed"
    [("request_id", FString (GetRequestID (ReqContext r)));
     ("method", FString (Method r));
     ("path", FString (URL_Path r));
     ("status", FInt status);
     ("duration", FDuration duration);
     ("remote_addr", FString (RemoteAddr r));
     ("user_agent", FString (UserAgent r))].

Definition Logging (logger : Logger) (next : Handler) : Handler :=
  fun w r =>
    start <- time_Now ;;
    wrapped <- newResponseWriter w ;;
    next (as_ResponseWriter wrapped) r ;;
    Logging_completed logger r start wrapped.

Definition internal_server_error : string :=
  "{" +:+ dquote +:+ "error" +:+ dquote +:+ ":" +:+
  dquote +:+ "internal server error" +:+ dquote +:+ "}".

(** The function that [Recovery] defers, given what its [recover()]
    returned.  Since Go 1.21 the value of a panic is never nil, so the
    test [rec != nil] holds exactly when the wrapped call panicked. *)
Definition Recovery_deferred `{Runtime} (logger : Logger) (w : ResponseWriter)
    (r : Request) (rec : option any) : M unit :=
  match rec with
  | Some v =>
      logger_Error logger "panic recovered"
        [("request_id", FString (GetRequestID (ReqContext r)));
         ("path", FString (URL_Path r));
         ("error", FAny v);
         ("stack", FString debug_Stack)] ;;
      http_Error w internal_server_error StatusInternalServerError
  | None => ret tt
  end.

Definition Recovery `{Runtime} (logger : Logger) (next : Handler) : Handler :=
  fun w r => defer_recover (next w r) (Recovery_deferred logger w r).

Definition CORS (next : Handler) : Handler :=
  fun w r =>
    Header_update w (header_Set "Access-Control-Allow-Origin" "*") ;;
    Header_update w (header_Set "Access-Control-Allow-Methods" "GET, POST, OPTIONS") ;;
    Header_update w (header_Set "Access-Control-Allow-Headers" "Content-Type, X-Request-ID") ;;
    if String.eqb (Method r) MethodOptions
    then WriteHeader w StatusNoContent
    else next w r.

Definition parseLogLevel (level : string) : Level :=
  if String.eqb level "debug" then DebugLevel
  else if String.eqb level "warn" then WarnLevel
  else if String.eqb level "error" then ErrorLevel
  else InfoLevel.

(** [NewLogger]: both branches build a logger at the parsed level; the
    build of these two stock configurations does not fail. *)
Definition NewLogger (level environment : string) : Logger :=
  if String.eqb environment "production"
  then {| min_level := parseLogLevel level; production := true |}
  else {| min_level := parseLogLevel level; production := false |}.

End Middleware.

Export Middleware.

(** ** Package handlers *)

Module Handlers.

Record HealthHandler : Type := {
  hh_logger : Logger;
  hh_cfg : Config;
  hh_ready : nat;               (* the cell of the field [ready] *)
  hh_startTime : Z
}.

Definition NewHealthHandler (logger : Logger) (cfg : Config) : M HealthHandler :=
  startTime <- time_Now ;;
  ready <- atomic_New ;;
  let h := {| hh_logger := logger; hh_cfg := cfg; hh_ready := ready;
              hh_startTime := startTime |} in
  atomic_Store (hh_ready h) true ;;
  ret h.

Definition SetNotReady (h : HealthHandler) : M unit :=
  atomic_Store (hh_ready h) false ;;
  logger_Info (hh_logger h) "service marked as not ready" [].

Record livenessResponse : Type := {
  lr_Status : string;
  lr_Timestamp : string
}.

Definition livenessResponse_json (v : livenessResponse) : JSON :=
  JObject [("status", JString (lr_Status v));
           ("timestamp", JString (lr_Timestamp v))].

Record check : Type := {
  ck_Name : string;
  ck_Status : string
}.

Definition check_json (c : check) : JSON :=
  JObject [("name", JString (ck_Name c)); ("status", JString (ck_Status c))].

Record readinessResponse : Type := {
  rr_Status : string;
  rr_Uptime : string;
  rr_Timestamp : string;
  rr_Checks : list check
}.

Definition readinessResponse_json (v : readinessResponse) : JSON :=
  JObject [("status", JString (rr_Status v));
           ("uptime", JString (rr_Uptime v));
           ("timestamp", JString (rr_Timestamp v));
           ("checks", JArray (map check_json (rr_Checks v)))].

Definition boolToStatus (b : bool) : string :=
  if b then "pass" else "fail".

Record APIHandler : Type := {
  ah_logger : Logger;
  ah_cfg : Config;
  ah_startTime : Z
}.

Definition NewAPIHandler (logger : Logger) (cfg : Config) : M APIHandler :=
  startTime <- time_Now ;;
  ret {| ah_logger := logger; ah_cfg := cfg; ah_startTime := startTime |}.

Record infoResponse : Type := {
  ir_Service : string;
  ir_Version : string;
  ir_Environment : string;
  ir_GoVersion : string;
  ir_OS : string;
  ir_Arch : string
}.

Definition infoResponse_json (v : infoResponse) : JSON :=
  JObject [("service", JString (ir_Service v));
           ("version", JString (ir_Version v));
           ("environment", JString (ir_Environment v));
           ("go_version", JString (ir_GoVersion v));
           ("os", JString (ir_OS v));
           ("arch", JString (ir_Arch v))].

Section WithRuntime.

Context `{Runtime}.

Definition Liveness (h : HealthHandler) : Handler :=
  fun w r =>
    now <- time_Now ;;
    let resp := {| lr_Status := "alive";
                   lr_Timestamp := time_Format_RFC3339 now |} in
    Header_update w (header_Set "Content-Type" "application/json") ;;
    WriteHeader w StatusOK ;;
    json_Encode w (livenessResponse_json resp).

Definition Readiness (h : HealthHandler) : Handler :=
  fun w r =>
    isReady <- atomic_Load (hh_ready h) ;;
    let status := if negb isReady then "not_ready" else "ready" in
    let httpStatus := if negb isReady then StatusServiceUnavailable else StatusOK in
    uptime <- time_Since (hh_startTime h) ;;
    now <- time_Now ;;
    let resp := {| rr_Status := status;
                   rr_Uptime := Duration_Round_Second_String uptime;
                   rr_Timestamp := time_Format_RFC3339 now;
                   rr_Checks := [{| ck_Name := "server";
                                    ck_Status := boolToStatus isReady |}] |} in
    Header_update w (header_Set "Content-Type" "application/json") ;;
    WriteHeader w httpStatus ;;
    json_Encode w (readinessResponse_json resp).

Definition Info (a : APIHandler) : Handler :=
  fun w r =>
    let resp := {| ir_Service := ServiceName (ah_cfg a);
                   ir_Version := Version (ah_cfg a);
                   ir_Environment := Environment (ah_cfg a);
                   ir_GoVersion := runtime_Version;
                   ir_OS := runtime_GOOS;
                   ir_Arch := runtime_GOARCH |} in
    Header_update w (header_Set "Content-Type" "application/json") ;;
    WriteHeader w StatusOK ;;
    json_Encode w (infoResponse_json resp).

End WithRuntime.

(** [float64(b)] for an unsigned 64-bit [b]: the nearest value with a
    53-bit significand, ties to even.  The result is an integer. *)
Definition float64_of_uint64 (b : Z) : Z :=
  let bits := Z.log2 b + 1 in
  if bits <=? 53 then b
  else
    let k := bits - 53 in
    let q := Z.shiftr b k in
    let r := Z.land b (Z.ones k) in
    let half := Z.shiftl 1 (k - 1) in
    let q' := if (half <? r) || ((r =? half) && Z.odd q) then q + 1 else q in
    Z.shiftl q' k.

Definition two_digits (n : Z) : string :=
  if n <? 10 then "0" +:+ pretty n else pretty n.

(** [strconv.FormatFloat(x, 'f', 2, 64)] for the non-negative value
    [x = num / 2^shift]: the exact value rounded to two decimals, ties
    to even. *)
Definition FormatFloat_f2 (num shift : Z) : string :=
  let scaled := num * 100 in
  let q := Z.shiftr scaled shift in
  let r := Z.land scaled (Z.ones shift) in
  let half := Z.shiftl 1 (shift - 1) in
  let cents := if (half <? r) || ((r =? half) && Z.odd q) then q + 1 else q in
  pretty (cents / 100) +:+ "." +:+ two_digits (cents mod 100).

(** [formatBytes]: [mb] is 2^20, so the quotient of the two floats is
    exact and equals [float64(b) / 2^20]. *)
Definition formatBytes (b : Z) : string :=
  FormatFloat_f2 (float64_of_uint64 b) 20.

End Handlers.

Export Handlers.

(** ** Package main *)

Module Main.

Inductive Signal : Type := SIGINT | SIGTERM.

Definition Signal_String (sig : Signal) : string :=
  match sig with
  | SIGINT => "interrupt"
  | SIGTERM => "terminated"
  end.

(** What became of [ListenAndServe] in the server goroutine before any
    signal was taken from [quit]: the server is listening, or the call
    returned an error other than [ErrServerClosed] (the port could not
    be bound, say).  A listener that fails later, while the shutdown
    sequence is under way, is not modelled. *)
Inductive ListenOutcome : Type :=
| Listening
| ListenFailed (err : any).

(** The state of the process as the operating system sees it. *)
Inductive Process : Type :=
| Running
| Exited (code : Z).

Section WithRuntime.

Context `{Runtime}.

(** The handler given to the server: the four middleware stages around
    the router. *)
Definition chain (logger : Logger) (mux : Handler) : Handler :=
  RequestID (Logging logger (Recovery logger (CORS mux))).

(** What [main] holds when it starts the server goroutine. *)
Record App : Type := {
  app_cfg : Config;
  app_logger : Logger;
  app_healthHandler : HealthHandler;
  app_apiHandler : APIHandler
}.

Definition startup (env : Environ) : M App :=
  let cfg := Load env in
  let logger := NewLogger (LogLevel cfg) (Environment cfg) in
  logger_Info logger "starting platform API service"
    [("version", FString (Version cfg));
     ("environment", FString (Environment cfg));
     ("port", FInt (Port cfg))] ;;
  healthHandler <- NewHealthHandler logger cfg ;;
  apiHandler <- NewAPIHandler logger cfg ;;
  ret {| app_cfg := cfg; app_logger := logger;
         app_healthHandler := healthHandler; app_apiHandler := apiHandler |}.

(** From the receipt of [sig] to the return of [main].  The context
    with the shutdown timeout is made before the readiness flag is
    flipped; the server is given that context afterwards. *)
Definition shutdown (app : App) (sig : Signal) (drained : option any) : M unit :=
  let logger := app_logger app in
  let cfg := app_cfg app in
  logger_Info logger "received shutdown signal"
    [("signal", FString (Signal_String sig))] ;;
  SetNotReady (app_healthHandler app) ;;
  logger_Info logger "draining connections"
    [("timeout", FDuration (ShutdownTimeout cfg))] ;;
  err <- server_Shutdown (ShutdownTimeout cfg) drained ;;
  match err with
  | Some e => logger_Error logger "forced shutdown" [("error", FError e)]
  | None => ret tt
  end ;;
  logger_Info logger "server stopped gracefully" [].

(** The server goroutine that [main] starts: it logs the address and
    calls [ListenAndServe]; on an error other than [ErrServerClosed] it
    calls [logger.Fatal], which writes the entry and ends the process
    with status 1.  The result is that status, if the process is ended
    here. *)
Definition server_goroutine (app : App) (listen : ListenOutcome) : M (option Z) :=
  logger_Info (app_logger app) "server listening"
    [("addr", FString (":" +:+ pretty (Port (app_cfg app))))] ;;
  match listen with
  | Listening => ret None
  | ListenFailed err =>
      log (app_logger app) FatalLevel "server failed to start"
        [("error", FError err)] ;;
      ret (Some 1)
  end.

(** The program, given what became of the listener and the signals the
    process is sent over its life.  [main] builds the application and
    starts the server goroutine; unless that ends the process, it takes
    one value from [quit], never reading it again, runs the shutdown
    sequence and returns, which ends the process with status 0. *)
Definition main (env : Environ) (listen : ListenOutcome) (signals : list Signal)
    (drained : option any) : M Process :=
  app <- startup env ;;
  fatal <- server_goroutine app listen ;;
  match fatal with
  | Some code => ret (Exited code)
  | None =>
      match signals with
      | [] => ret Running
      | sig :: _ => shutdown app sig drained ;; ret (Exited 0)
      end
  end.

(** The state of the process and the world it leaves; a panic of the
    main goroutine ends the process with status 2. *)
Definition run (env : Environ) (listen : ListenOutcome) (signals : list Signal)
    (drained : option any) (s : World) : Process * World :=
  match main env listen signals drained s with
  | (Returned p, s') => (p, s')
  | (Panicked _, s') => (Exited 2, s')
  end.

End WithRuntime.

End Main.

Export Main.

(** ** The point at which the chain calls the router

    Derived from the code above, not part of it: the arguments with
    which [chain logger mux] calls [mux] for a request whose method is
    not OPTIONS.  Lemma [chain_calls_mux] below shows that the chain
    does call [mux] with exactly these. *)

Module CallPoint.

(** The correlation id that [RequestID] picks. *)
Definition request_id (r : Request) (s : World) : string :=
  let id := header_Get (ReqHeader r) "X-Request-ID" in
  if String.eqb id EmptyString
  then uuid_String (version4 (next16 s))
  else id.

(** The request with the id in its context. *)
Definition request_in_chain (r : Request) (s : World) : Request :=
  WithContext r (WithValue (ReqContext r) requestIDKey (AString (request_id r s))).

(** The wrapper that [Logging] makes around the recorder. *)
Definition writer_in_chain (s : World) : responseWriter :=
  {| ResponseWriter_ := recorder; statusCode_at := fresh (dom (statusCodes s)) |}.

(** The three headers of [CORS], set on a header map. *)
Definition cors_headers (h : Header) : Header :=
  header_Set "Access-Control-Allow-Headers" "Content-Type, X-Request-ID"
    (header_Set "Access-Control-Allow-Methods" "GET, POST, OPTIONS"
       (header_Set "Access-Control-Allow-Origin" "*" h)).

(** The world at that point: random bytes used if an id was made, the
    id on the response header, the wrapper's status cell allocated, the
    three CORS headers set. *)
Definition world_in_chain (r : Request) (s : World) : World :=
  let s1 := if String.eqb (header_Get (ReqHeader r) "X-Request-ID") EmptyString
            then set_entropy (fun i => entropy s (i + 16)%nat) s else s in
  let s2 := set_response
              (upd_HeaderMap (header_Set "X-Request-ID" (request_id r s)) (response s1)) s1 in
  let s3 := set_statusCodes (<[fresh (dom (statusCodes s2)) := StatusOK]> (statusCodes s2)) s2 in
  set_response (upd_HeaderMap cors_headers (response s3)) s3.

End CallPoint.

Export CallPoint.

(** ** Calling handlers the way the tests do, and example inputs *)

Module Harness.

(** [handler(rec, req)] with [rec := httptest.NewRecorder()]. *)
Definition serve (h : Handler) (r : Request) : M unit :=
  fun s => h recorder r (set_response NewRecorder s).

(** The member [name] of a body that is a single JSON document. *)
Definition body_field (name : string) (rw : Recorder) : option JSON :=
  match Body rw with
  | [JSONLine v] => field name v
  | _ => None
  end.

(** The methods of [*HealthHandler]. *)
Inductive HealthCall : Type :=
| CallSetNotReady
| CallLiveness (r : Request)
| CallReadiness (r : Request).

Definition health_call `{Runtime} (h : HealthHandler) (c : HealthCall) : M unit :=
  match c with
  | CallSetNotReady => SetNotReady h
  | CallLiveness r => serve (Liveness h) r
  | CallReadiness r => serve (Readiness h) r
  end.

Fixpoint health_calls `{Runtime} (h : HealthHandler) (cs : list HealthCall) : M unit :=
  match cs with
  | [] => ret tt
  | c :: rest => health_call h c ;; health_calls h rest
  end.

(** The error-level entries among [l]. *)
Definition errors (l : list Entry) : list Entry := List.filter is_error l.

(** A duration parser for the examples: decimal digits followed by s,
    such as 45s. *)
Fixpoint seconds_digits (s : string) (acc : Z) : option Z :=
  match s with
  | EmptyString => None
  | String c rest =>
      if Ascii.eqb c "s"
      then match rest with EmptyString => Some (acc * Second) | _ => None end
      else match digit_of c with
           | Some d => seconds_digits rest (acc * 10 + d)
           | None => None
           end
  end.

Definition example_ParseDuration (s : string) : option Z :=
  match s with
  | String c _ =>
      match digit_of c with
      | Some _ => seconds_digits s 0
      | None => None
      end
  | EmptyString => None
  end.

Definition exampleRuntime : Runtime :=
  {| time_Format_RFC3339 := fun t => "t" +:+ pretty t;
     Duration_Round_Second_String := fun d => pretty (d / Second) +:+ "s";
     time_ParseDuration := example_ParseDuration;
     runtime_Version := "go1.26";
     runtime_GOOS := "linux";
     runtime_GOARCH := "amd64";
     debug_Stack := "goroutine 7 [running]" |}.

Definition exampleWorld : World :=
  {| response := NewRecorder; logs := []; clock := 1000;
     entropy := fun i => Z.of_nat i * 37;
     statusCodes := ∅; atomics := ∅; history := [] |}.

Definition exampleRequest (method path : string) (h : Header) : Request :=
  {| Method := method; URL_Path := path; ReqHeader := h;
     RemoteAddr := "10.0.0.7:40312"; ReqContext := Background |}.

Definition testConfig : Config :=
  {| ServiceName := "test-api"; Version := "0.0.1"; Environment := "test";
     Port := 0; ReadTimeout := 0; WriteTimeout := 0; IdleTimeout := 0;
     ShutdownTimeout := 0; LogLevel := EmptyString |}.

Definition testLogger : Logger := {| min_level := DebugLevel; production := false |}.

Definition testAPIHandler : APIHandler :=
  {| ah_logger := testLogger; ah_cfg := testConfig; ah_startTime := 1000 |}.

Definition testHealthHandler : HealthHandler :=
  {| hh_logger := testLogger; hh_cfg := testConfig; hh_ready := 0%nat;
     hh_startTime := 1000 |}.

(** A world in which the flag of [testHealthHandler] holds [b]. *)
Definition worldWithFlag (b : bool) : World :=
  set_atomics {[ 0%nat := b ]} exampleWorld.

(** An environment whose port and shutdown timeout do not parse. *)
Definition malformedEnv : Environ :=
  {[ "PORT" := "eighty"; "SHUTDOWN_TIMEOUT" := "soon" ]}.

(** The entry that [Recovery] logs for a panic with value [v]. *)
Definition panic_entry `{Runtime} (id path : string) (v : any) : Entry :=
  {| entry_level := ErrorLevel; entry_msg := "panic recovered";
     entry_fields := [("request_id", FString id); ("path", FString path);
                      ("error", FAny v); ("stack", FString debug_Stack)] |}.

(** A handler that has sent part of its response when it panics. *)
Definition partial_then_panic : Handler :=
  fun w r => Write w (Bytes "partial") ;; panic (AString "boom").

(** A handler that panics at once. *)
Definition panic_at_once : Handler :=
  fun w r => panic (AError "nil map").

End Harness.

Export Harness.

(** ** The status endpoint of package handlers *)

Module StatusEndpoint.

(** What [runtime.ReadMemStats] and [runtime.NumGoroutine] report at a
    given moment: readings of the running process, taken as given. *)
Class RuntimeStats : Type := {
  memStats_Alloc : World -> Z;
  runtime_NumGoroutine : World -> Z
}.

Record statusResponse : Type := {
  sr_Status : string;
  sr_Uptime : string;
  sr_Goroutines : Z;
  sr_MemoryAlloc : string;
  sr_Timestamp : string
}.

Definition statusResponse_json (v : statusResponse) : JSON :=
  JObject [("status", JString (sr_Status v));
           ("uptime", JString (sr_Uptime v));
           ("goroutines", JNumber (sr_Goroutines v));
           ("memory_alloc_mb", JString (sr_MemoryAlloc v));
           ("timestamp", JString (sr_Timestamp v))].

Definition Status `{Runtime} `{RuntimeStats} (a : APIHandler) : Handler :=
  fun w r =>
    alloc <- gets memStats_Alloc ;;
    uptime <- time_Since (ah_startTime a) ;;
    goroutines <- gets runtime_NumGoroutine ;;
    now <- time_Now ;;
    let resp := {| sr_Status := "operational";
                   sr_Uptime := Duration_Round_Second_String uptime;
                   sr_Goroutines := goroutines;
                   sr_MemoryAlloc := formatBytes alloc;
                   sr_Timestamp := time_Format_RFC3339 now |} in
    log (ah_logger a) DebugLevel "status check"
      [("goroutines", FInt (sr_Goroutines resp));
       ("memory", FString (sr_MemoryAlloc resp))] ;;
    Header_update w (header_Set "Content-Type" "application/json") ;;
    WriteHeader w StatusOK ;;
    json_Encode w (statusResponse_json resp).

Definition exampleStats : RuntimeStats :=
  {| memStats_Alloc := fun s => 3 * 1048576 + clock s;
     runtime_NumGoroutine := fun _ => 9 |}.

End StatusEndpoint.

Export StatusEndpoint.

(** ** Handlers given as a list of writer calls *)

Module Scripted.

(** One call on the response writer. *)
Inductive WriterOp : Type :=
| OpHeaderSet (key value : string)
| OpWriteHeader (code : Z)
| OpWrite (c : Chunk).

Definition do_op (w : ResponseWriter) (o : WriterOp) : M unit :=
  match o with
  | OpHeaderSet key value => Header_update w (header_Set key value)
  | OpWriteHeader code => WriteHeader w code
  | OpWrite c => Write w c
  end.

Fixpoint do_ops (w : ResponseWriter) (ops : list WriterOp) : M unit :=
  match ops with
  | [] => ret tt
  | o :: rest => do_op w o ;; do_ops w rest
  end.

(** The handler that makes these calls in order and returns. *)
Definition scripted (ops : list WriterOp) : Handler :=
  fun w _ => do_ops w ops.

(** The code of the last [WriteHeader] call, or [d] if there is none. *)
Fixpoint last_code (ops : list WriterOp) (d : Z) : Z :=
  match ops with
  | [] => d
  | OpWriteHeader code :: rest => last_code rest code
  | _ :: rest => last_code rest d
  end.

(** The status that goes out: the code of the first [WriteHeader], or
    200 if a [Write] comes first; [d] if nothing is written. *)
Fixpoint sent_code (ops : list WriterOp) (d : Z) : Z :=
  match ops with
  | [] => d
  | OpWriteHeader code :: _ => code
  | OpWrite _ :: _ => 200
  | OpHeaderSet _ _ :: rest => sent_code rest d
  end.

(** A handler that sets its content type and panics before writing. *)
Definition typed_then_panic : Handler :=
  fun w _ =>
    Header_update w (header_Set "Content-Type" "application/json") ;;
    panic (AError "nil map").

Definition valid_code (o : WriterOp) : Prop :=
  match o with
  | OpWriteHeader code => 100 <= code <= 999
  | _ => True
  end.

End Scripted.

Export Scripted.

(** ** What the middleware leaves behind

    Derived from the code, to state its effect in closed form. *)

Module Effects.

(** The header map after [http.Error]. *)
Definition error_headers (h : Header) : Header :=
  header_Set "X-Content-Type-Options" "nosniff"
    (header_Set "Content-Type" "text/plain; charset=utf-8"
       (header_Del "Content-Length" h)).

(** The recorder after [http.Error(w, msg, code)] with a valid code. *)
Definition after_http_Error (msg : string) (code : Z) (rw : Recorder) : Recorder :=
  {| Code := if wroteHeader rw then Code rw else code;
     HeaderMap := error_headers (HeaderMap rw);
     Body := Body rw ++ [Bytes (msg +:+ newline)];
     wroteHeader := true;
     snapHeader := if wroteHeader rw then snapHeader rw
                   else Some (error_headers (HeaderMap rw)) |}.

(** The entry that [Logging] writes for request [r]. *)
Definition completion_entry (r : Request) (status duration : Z) : Entry :=
  {| entry_level := InfoLevel; entry_msg := "request completed";
     entry_fields :=
       [("request_id", FString (GetRequestID (ReqContext r)));
        ("method", FString (Method r));
        ("path", FString (URL_Path r));
        ("status", FInt status);
        ("duration", FDuration duration);
        ("remote_addr", FString (RemoteAddr r));
        ("user_agent", FString (UserAgent r))] |}.

(** Appends [e] to the log if [lg] lets entries of its level through. *)
Definition logged (lg : Logger) (e : Entry) (s : World) : World :=
  if Enabled lg (entry_level e) then set_logs (logs s ++ [e]) s else s.

(** Whether a call of a health handler method is [SetNotReady]. *)
Definition is_SetNotReady (c : HealthCall) : bool :=
  match c with
  | CallSetNotReady => true
  | _ => false
  end.

End Effects.

Export Effects.

(** ** The chart's name helpers (helm/platform-api/templates/_helpers.tpl)

    The template functions are those of Sprig over byte strings; an
    unset value is the empty string, which [default] and [if] treat as
    absent. *)

Module Helm.

Record Chart : Type := {
  Chart_Name : string;
  Chart_Version : string
}.

Record HelmValues : Type := {
  nameOverride : string;
  fullnameOverride : string
}.

Fixpoint trunc (c : nat) (s : string) : string :=
  match c, s with
  | S c', String a rest => String a (trunc c' rest)
  | _, _ => EmptyString
  end.

Fixpoint trimSuffix (suffix s : string) : string :=
  if String.eqb s suffix then EmptyString
  else match s with
       | EmptyString => EmptyString
       | String a rest => String a (trimSuffix suffix rest)
       end.

Definition default_ (d v : string) : string :=
  if String.eqb v EmptyString then d else v.

(** [contains substr s]: [s] has [substr] somewhere in it. *)
Fixpoint contains (substr s : string) : bool :=
  String.prefix substr s ||
  match s with
  | EmptyString => false
  | String _ rest => contains substr rest
  end.

(** [replace old new] for one-character [old] and [new]. *)
Fixpoint replace_char (old new : ascii) (s : string) : string :=
  match s with
  | EmptyString => EmptyString
  | String a rest =>
      String (if Ascii.eqb a old then new else a) (replace_char old new rest)
  end.

Definition printf_dash (a b : string) : string := a +:+ "-" +:+ b.

Definition platform_api_name (chart : Chart) (values : HelmValues) : string :=
  trimSuffix "-" (trunc 63 (default_ (Chart_Name chart) (nameOverride values))).

Definition platform_api_fullname (chart : Chart) (release_Name : string)
    (values : HelmValues) : string :=
  if negb (String.eqb (fullnameOverride values) EmptyString)
  then trimSuffix "-" (trunc 63 (fullnameOverride values))
  else
    let name := default_ (Chart_Name chart) (nameOverride values) in
    if contains name release_Name
    then trimSuffix "-" (trunc 63 release_Name)
    else trimSuffix "-" (trunc 63 (printf_dash release_Name name)).

Definition platform_api_chart (chart : Chart) : string :=
  trimSuffix "-"
    (trunc 63
       (replace_char "+" "_" (printf_dash (Chart_Name chart) (Chart_Version chart)))).

(** Whether the character [a] occurs in [s]. *)
Fixpoint has_char (a : ascii) (s : string) : bool :=
  match s with
  | EmptyString => false
  | String b rest => Ascii.eqb b a || has_char a rest
  end.

End Helm.

Export Helm.

(** ** The variables that [config.Load] looks up *)

Module ConfigKeys.

Definition config_keys : list string :=
  ["SERVICE_NAME"; "SERVICE_VERSION"; "ENVIRONMENT"; "PORT"; "READ_TIMEOUT";
   "WRITE_TIMEOUT"; "IDLE_TIMEOUT"; "SHUTDOWN_TIMEOUT"; "LOG_LEVEL"].

(** The configuration of a process started with none of them set. *)
Definition defaultConfig : Config :=
  {| ServiceName := "platform-api"; Version := "1.0.0";
     Environment := "development"; Port := 9090;
     ReadTimeout := 5 * Second; WriteTimeout := 10 * Second;
     IdleTimeout := 120 * Second; ShutdownTimeout := 30 * Second;
     LogLevel := "info" |}.

End ConfigKeys.

Export ConfigKeys.

(** Reduces projections of worlds and recorders built by the setters,
    and the range test on literal status codes. *)
Ltac world_simpl :=
  cbn [orb Z.ltb Z.compare Pos.compare Pos.compare_cont
       StatusInternalServerError StatusOK StatusNoContent
       StatusServiceUnavailable panic
       response logs clock entropy statusCodes atomics history
       set_response set_logs set_entropy set_statusCodes set_atomics add_history
       upd_HeaderMap Code HeaderMap Body wroteHeader snapHeader
       Header_update Header_read Write WriteHeader ResponseWriter_ statusCode_at
       fst snd].

Ltac world_simpl_in H :=
  cbn [orb Z.ltb Z.compare Pos.compare Pos.compare_cont
       StatusInternalServerError StatusOK StatusNoContent
       StatusServiceUnavailable panic
       response logs clock entropy statusCodes atomics history
       set_response set_logs set_entropy set_statusCodes set_atomics add_history
       upd_HeaderMap Code HeaderMap Body wroteHeader snapHeader
       Header_update Header_read Write WriteHeader ResponseWriter_ statusCode_at
       fst snd] in H.

(** * Properties *)

(** ** Memory formatting *)

(** C9: one mebibyte renders as 1.00 and zero bytes as 0.00 (and, as in
    the package's test table, two mebibytes as 2.00). *)
Theorem formatBytes_boundaries :
  formatBytes 1048576 = "1.00" /\ formatBytes 0 = "0.00" /\
  formatBytes 2097152 = "2.00".
Proof. repeat split; vm_compute; reflexivity. Qed.

(** Sizes below 2^53 are held exactly by a float64. *)
Lemma float64_of_uint64_exact (b : Z) :
  0 <= b < 2 ^ 53 -> float64_of_uint64 b = b.
Proof.
  intros [H0 H1]. unfold float64_of_uint64.
  destruct (Z.leb_spec (Z.log2 b + 1) 53) as [_ | Hbits]; [reflexivity |].
  exfalso. destruct (Z.eq_dec b 0) as [-> | Hne]; [simpl in Hbits; lia |].
  assert (Z.log2 b < 53) by (apply Z.log2_lt_pow2; lia). lia.
Qed.

(** X16: a whole number of mebibytes, up to 2^33 of them, renders as
    that number with two zero decimals. *)
Lemma formatBytes_whole_mebibytes (k : Z) :
  0 <= k < 2 ^ 33 -> formatBytes (k * 1048576) = pretty k +:+ ".00".
Proof.
  intros Hk. change (2 ^ 33) with 8589934592 in Hk. unfold formatBytes.
  rewrite float64_of_uint64_exact
    by (change (2 ^ 53) with 9007199254740992; lia).
  unfold FormatFloat_f2.
  replace (k * 1048576 * 100) with (k * 100 * 2 ^ 20) by (change (2 ^ 20) with 1048576; lia).
  rewrite Z.shiftr_div_pow2 by lia.
  rewrite Z.land_ones by lia.
  rewrite Z.mod_mul by (change (2 ^ 20) with 1048576; lia).
  rewrite Z.div_mul by (change (2 ^ 20) with 1048576; lia).
  replace (Z.shiftl 1 (20 - 1)) with 524288 by reflexivity.
  cbn [Z.ltb Z.compare Z.eqb orb andb].
  rewrite Z.div_mul by lia. rewrite Z.mod_mul by lia.
  reflexivity.
Qed.

(** ** Configuration *)

Section ConfigFacts.

Context `{Runtime}.

Lemma getEnvInt_malformed (env : Environ) (key value : string) (d : Z) :
  env !! key = Some value -> Atoi value = None -> getEnvInt env key d = d.
Proof. intros Hk Hv. unfold getEnvInt. rewrite Hk, Hv. reflexivity. Qed.

Lemma getEnvInt_unset (env : Environ) (key : string) (d : Z) :
  env !! key = None -> getEnvInt env key d = d.
Proof. intros Hk. unfold getEnvInt. rewrite Hk. reflexivity. Qed.

Lemma getEnvDuration_malformed (env : Environ) (key value : string) (d : Z) :
  env !! key = Some value -> time_ParseDuration value = None ->
  getEnvDuration env key d = d.
Proof. intros Hk Hv. unfold getEnvDuration. rewrite Hk, Hv. reflexivity. Qed.

Lemma startup_returns (env : Environ) (s : World) :
  exists app, fst (startup env s) = Returned app /\ app_cfg app = Load env.
Proof. eexists. split; reflexivity. Qed.

(** C7: a value that does not parse as an integer (PORT) or as a
    duration (the four timeouts) leaves the setting at its default, and
    startup goes on to return the application with that configuration. *)
Theorem Load_malformed_falls_back (env : Environ) (value : string) (s : World) :
  (env !! "PORT" = Some value -> Atoi value = None ->
     Port (Load env) = 9090) /\
  (env !! "READ_TIMEOUT" = Some value -> time_ParseDuration value = None ->
     ReadTimeout (Load env) = 5 * Second) /\
  (env !! "WRITE_TIMEOUT" = Some value -> time_ParseDuration value = None ->
     WriteTimeout (Load env) = 10 * Second) /\
  (env !! "IDLE_TIMEOUT" = Some value -> time_ParseDuration value = None ->
     IdleTimeout (Load env) = 120 * Second) /\
  (env !! "SHUTDOWN_TIMEOUT" = Some value -> time_ParseDuration value = None ->
     ShutdownTimeout (Load env) = 30 * Second) /\
  (exists app, fst (startup env s) = Returned app /\ app_cfg app = Load env).
Proof.
  repeat split; try (intros Hk Hv; cbn [Load Port ReadTimeout WriteTimeout
    IdleTimeout ShutdownTimeout]).
  - exact (getEnvInt_malformed env _ _ _ Hk Hv).
  - exact (getEnvDuration_malformed env _ _ _ Hk Hv).
  - exact (getEnvDuration_malformed env _ _ _ Hk Hv).
  - exact (getEnvDuration_malformed env _ _ _ Hk Hv).
  - exact (getEnvDuration_malformed env _ _ _ Hk Hv).
  - apply startup_returns.
Qed.

End ConfigFacts.

Lemma Load_malformed_falls_back_witness :
  Port (@Load exampleRuntime malformedEnv) = 9090 /\
  ShutdownTimeout (@Load exampleRuntime malformedEnv) = 30 * Second.
Proof.
  split.
  - apply (proj1 (@Load_malformed_falls_back exampleRuntime malformedEnv
                    "eighty" exampleWorld)); vm_compute; reflexivity.
  - apply (proj1 (proj2 (proj2 (proj2 (proj2
             (@Load_malformed_falls_back exampleRuntime malformedEnv
                "soon" exampleWorld))))));
      vm_compute; reflexivity.
Defined.

(** ** Correlation ids *)

Lemma GetRequestID_WithValue (ctx : Context) (id : string) :
  GetRequestID (WithValue ctx requestIDKey (AString id)) = id.
Proof. reflexivity. Qed.

Lemma GetRequestID_missing (ctx : Context) :
  (forall id, Value ctx requestIDKey <> Some (AString id)) ->
  GetRequestID ctx = "unknown".
Proof.
  intros Hno. unfold GetRequestID.
  destruct (Value ctx requestIDKey) as [[id | n | msg] |] eqn:Hv;
    try reflexivity.
  exfalso. exact (Hno id eq_refl).
Qed.

Lemma header_Get_Set (h : Header) (key value : string) :
  header_Get (header_Set key value h) key = value.
Proof. unfold header_Get, header_Set. rewrite lookup_insert_eq. reflexivity. Qed.

Lemma header_Get_Set_ne (h : Header) (key key' value : string) :
  key <> key' -> header_Get (header_Set key value h) key' = header_Get h key'.
Proof.
  intros Hne. unfold header_Get, header_Set.
  rewrite lookup_insert_ne by exact Hne. reflexivity.
Qed.

Lemma header_Get_Del_ne (h : Header) (key key' : string) :
  key <> key' -> header_Get (header_Del key h) key' = header_Get h key'.
Proof.
  intros Hne. unfold header_Get, header_Del.
  rewrite lookup_delete_ne by exact Hne. reflexivity.
Qed.

Lemma set_byte_length (i : nat) (f : Z -> Z) (u : list Z) :
  length (set_byte i f u) = length u.
Proof.
  unfold set_byte. destruct (u !! i); [apply length_insert | reflexivity].
Qed.

Lemma uuid_String_length (u : list Z) :
  length u = 16%nat -> String.length (uuid_String u) = 36%nat.
Proof.
  intros Hlen.
  do 17 (destruct u as [| ? u]; try discriminate Hlen).
  reflexivity.
Qed.

Lemma version4_next16_length (s : World) :
  length (version4 (next16 s)) = 16%nat.
Proof.
  unfold version4, next16. rewrite !set_byte_length.
  rewrite length_map, length_seq. reflexivity.
Qed.

Lemma uuid_New_run (s : World) :
  uuid_New s =
    (Returned (version4 (next16 s)),
     set_entropy (fun i => entropy s (i + 16)%nat) s).
Proof. reflexivity. Qed.

Lemma request_id_nonempty (r : Request) (s : World) :
  request_id r s <> EmptyString.
Proof.
  unfold request_id.
  destruct (String.eqb (header_Get (ReqHeader r) "X-Request-ID") EmptyString) eqn:Hid.
  - intros Hempty.
    pose proof (uuid_String_length _ (version4_next16_length s)) as Hlen.
    rewrite Hempty in Hlen. discriminate Hlen.
  - intros Hempty. rewrite Hempty in Hid. discriminate Hid.
Qed.

Lemma hexdigit_inj (a b : Z) :
  0 <= a < 16 -> 0 <= b < 16 -> hexdigit a = hexdigit b -> a = b.
Proof.
  intros Ha Hb. rewrite <- (Z2Nat.id a), <- (Z2Nat.id b) by lia.
  assert (Hka : (Z.to_nat a < 16)%nat) by lia.
  assert (Hkb : (Z.to_nat b < 16)%nat) by lia.
  revert Hka Hkb. generalize (Z.to_nat a) (Z.to_nat b). intros ka kb Hka Hkb.
  do 16 (destruct ka as [| ka]; [
    do 16 (destruct kb as [| kb];
           [vm_compute; first [reflexivity | discriminate] |]); lia |]).
  lia.
Qed.

Lemma hexbyte_digits_inj (a b : Z) :
  0 <= a < 256 -> 0 <= b < 256 ->
  hexdigit (a / 16) = hexdigit (b / 16) ->
  hexdigit (a mod 16) = hexdigit (b mod 16) -> a = b.
Proof.
  intros Ha Hb Hhi Hlo.
  apply hexdigit_inj in Hhi;
    [| split; [apply Z.div_pos; lia | apply Z.div_lt_upper_bound; lia]
     | split; [apply Z.div_pos; lia | apply Z.div_lt_upper_bound; lia]].
  apply hexdigit_inj in Hlo; [| apply Z.mod_pos_bound; lia ..].
  rewrite (Z.div_mod a 16), (Z.div_mod b 16) by lia. rewrite Hhi, Hlo. reflexivity.
Qed.

(** The text of a UUID determines its sixteen bytes. *)
Lemma uuid_String_inj (u1 u2 : list Z) :
  length u1 = 16%nat -> length u2 = 16%nat ->
  Forall (fun b => 0 <= b < 256) u1 -> Forall (fun b => 0 <= b < 256) u2 ->
  uuid_String u1 = uuid_String u2 -> u1 = u2.
Proof.
  intros Hl1 Hl2 Hb1 Hb2 Heq.
  do 17 (destruct u1 as [| ? u1]; try discriminate Hl1).
  do 17 (destruct u2 as [| ? u2]; try discriminate Hl2).
  cbv [uuid_String hexbytes slice firstn skipn fold_right hexbyte String.append
       Nat.sub] in Heq.
  injection Heq as ?.
  repeat match goal with
         | Hf : Forall _ (_ :: _) |- _ =>
             let Hx := fresh "Hbyte" in
             apply Forall_cons_1 in Hf; destruct Hf as [Hx Hf]
         end.
  repeat f_equal; apply hexbyte_digits_inj; assumption.
Qed.

Lemma lor_disjoint_bound (x m : Z) :
  0 <= x < m -> Z.land x m = 0 -> 0 <= m -> m <= Z.lor x m < 2 * m.
Proof.
  intros Hx Hland Hm.
  rewrite <- Z.lxor_lor by exact Hland.
  rewrite <- Z.add_nocarry_lxor by exact Hland. lia.
Qed.

(** The bytes of the UUID that [uuid.New] makes from the random source:
    the next sixteen bytes, with the version bits of byte 6 and the
    variant bits of byte 8 set. *)
Lemma version4_next16_bytes (s : World) :
  let e := fun i => entropy s i mod 256 in
  version4 (next16 s) =
    [e 0%nat; e 1%nat; e 2%nat; e 3%nat; e 4%nat; e 5%nat;
     Z.lor (Z.land (e 6%nat) 15) 64; e 7%nat;
     Z.lor (Z.land (e 8%nat) 63) 128; e 9%nat; e 10%nat; e 11%nat;
     e 12%nat; e 13%nat; e 14%nat; e 15%nat].
Proof. reflexivity. Qed.

Lemma version4_next16_in_range (s : World) :
  Forall (fun b => 0 <= b < 256) (version4 (next16 s)).
Proof.
  rewrite version4_next16_bytes. cbv zeta.
  assert (Hmod : forall i, 0 <= entropy s i mod 256 < 256)
    by (intros i; apply Z.mod_pos_bound; lia).
  assert (H6 : 0 <= Z.lor (Z.land (entropy s 6 mod 256) 15) 64 < 256).
  { change 15 with (Z.ones 4). rewrite Z.land_ones by lia.
    pose proof (Z.mod_pos_bound (entropy s 6 mod 256) (2 ^ 4) ltac:(lia)) as Hb.
    change (2 ^ 4) with 16 in *.
    pose proof (lor_disjoint_bound ((entropy s 6 mod 256) mod 16) 64) as Hl.
    assert (Hland : Z.land ((entropy s 6 mod 256) mod 16) 64 = 0).
    { change 16 with (2 ^ 4). rewrite <- Z.land_ones by lia.
      rewrite <- Z.land_assoc. change (Z.land (Z.ones 4) 64) with 0.
      apply Z.land_0_r. }
    specialize (Hl ltac:(lia) Hland ltac:(lia)). lia. }
  assert (H8 : 0 <= Z.lor (Z.land (entropy s 8 mod 256) 63) 128 < 256).
  { change 63 with (Z.ones 6). rewrite Z.land_ones by lia.
    pose proof (Z.mod_pos_bound (entropy s 8 mod 256) (2 ^ 6) ltac:(lia)) as Hb.
    change (2 ^ 6) with 64 in *.
    pose proof (lor_disjoint_bound ((entropy s 8 mod 256) mod 64) 128) as Hl.
    assert (Hland : Z.land ((entropy s 8 mod 256) mod 64) 128 = 0).
    { change 64 with (2 ^ 6). rewrite <- Z.land_ones by lia.
      rewrite <- Z.land_assoc. change (Z.land (Z.ones 6) 128) with 0.
      apply Z.land_0_r. }
    specialize (Hl ltac:(lia) Hland ltac:(lia)). lia. }
  repeat (apply List.Forall_cons; [first [exact H6 | exact H8 | apply Hmod] |]).
  apply List.Forall_nil.
Qed.

(** C3: [RequestID] sets the correlation id on the response's
    X-Request-ID header and calls the next handler with a request whose
    context yields that id.  The id is the inbound header value when
    that is not empty.  Otherwise it is the text of the version 4 UUID
    that [uuid.New] makes from the next sixteen bytes of the random
    source, which are used up: 36 characters, so not empty, and
    determining those bytes, so that two draws give the same id only if
    they give the same UUID. *)
Theorem RequestID_correlates (next : Handler) (w : ResponseWriter)
    (r : Request) (s : World) :
  let inbound := header_Get (ReqHeader r) "X-Request-ID" in
  let id := request_id r s in
  let r' := WithContext r (WithValue (ReqContext r) requestIDKey (AString id)) in
  let s' := if String.eqb inbound EmptyString then snd (uuid_New s) else s in
  RequestID next w r s =
    (Header_update w (header_Set "X-Request-ID" id) ;; next w r') s' /\
  GetRequestID (ReqContext r') = id /\
  header_Get
    (HeaderMap (response
       (snd (Header_update recorder (header_Set "X-Request-ID" id) s'))))
    "X-Request-ID" = id /\
  (inbound <> EmptyString -> id = inbound /\ s' = s) /\
  (inbound = EmptyString ->
     (exists u,
        fst (uuid_New s) = Returned u /\ id = uuid_String u /\
        let e := fun i => entropy s i mod 256 in
        u = [e 0%nat; e 1%nat; e 2%nat; e 3%nat; e 4%nat; e 5%nat;
             Z.lor (Z.land (e 6%nat) 15) 64; e 7%nat;
             Z.lor (Z.land (e 8%nat) 63) 128; e 9%nat; e 10%nat; e 11%nat;
             e 12%nat; e 13%nat; e 14%nat; e 15%nat]) /\
     id <> EmptyString /\ String.length id = 36%nat /\
     (forall i, entropy s' i = entropy s (i + 16)%nat) /\
     (forall s2 u2,
        fst (uuid_New s2) = Returned u2 -> uuid_String u2 = id ->
        fst (uuid_New s) = Returned u2)).
Proof.
  cbv zeta. unfold RequestID, request_id.
  destruct (String.eqb (header_Get (ReqHeader r) "X-Request-ID") EmptyString) eqn:Hid.
  - split; [reflexivity |]. split; [reflexivity |].
    split; [apply header_Get_Set |]. split.
    + intros Hne. apply String.eqb_eq in Hid. contradiction.
    + intros _. split; [eexists; split; [| split]; reflexivity |].
      pose proof (uuid_String_length _ (version4_next16_length s)) as Hlen.
      split; [| split; [exact Hlen | split; [reflexivity |]]].
      * intros Hempty. rewrite Hempty in Hlen. discriminate Hlen.
      * intros s2 u2 Hu2 Htext. rewrite uuid_New_run in *. cbn [fst] in *.
        injection Hu2 as <-. f_equal.
        symmetry. apply uuid_String_inj;
          [apply version4_next16_length | apply version4_next16_length
          | apply version4_next16_in_range | apply version4_next16_in_range
          | exact Htext].
  - split; [reflexivity |]. split; [reflexivity |].
    split; [apply header_Get_Set |]. split.
    + intros _. split; reflexivity.
    + intros Hempty. rewrite Hempty in Hid. discriminate Hid.
Qed.

Lemma RequestID_correlates_witness :
  request_id (exampleRequest "GET" "/api/v1/info" {[ "X-Request-ID" := ["abc-123"] ]})
    exampleWorld = "abc-123" /\
  request_id (exampleRequest "GET" "/api/v1/info" ∅) exampleWorld
    = "00254a6f-94b9-4e03-a84d-7297bce1062b".
Proof.
  split.
  - destruct (RequestID_correlates panic_at_once recorder
         (exampleRequest "GET" "/api/v1/info" {[ "X-Request-ID" := ["abc-123"] ]})
         exampleWorld) as (_ & _ & _ & Hgiven & _).
    destruct Hgiven as [Hid _]; [vm_compute; discriminate |].
    rewrite Hid. vm_compute. reflexivity.
  - destruct (RequestID_correlates panic_at_once recorder
         (exampleRequest "GET" "/api/v1/info" ∅) exampleWorld)
      as (_ & _ & _ & _ & Hfresh).
    destruct Hfresh as ((u & _ & Hid & Hu) & _); [vm_compute; reflexivity |].
    rewrite Hid, Hu. vm_compute. reflexivity.
Defined.

Section MiddlewareFacts.

Context `{Runtime}.

(** C10: for a context without a correlation id [GetRequestID] is the
    text unknown, which is not empty; the entries that [Logging] and
    [Recovery] write for a request with such a context carry it as
    their request_id; and a context made by [RequestID] always yields a
    non-empty id. *)
Theorem GetRequestID_unknown (ctx : Context) :
  (forall id, Value ctx requestIDKey <> Some (AString id)) ->
  GetRequestID ctx = "unknown" /\
  GetRequestID ctx <> EmptyString /\
  (forall logger next w r s s2,
     ReqContext r = ctx ->
     next (as_ResponseWriter {| ResponseWriter_ := w;
                                statusCode_at := fresh (dom (statusCodes s)) |}) r
          (snd (newResponseWriter w s)) = (Returned tt, s2) ->
     exists e,
       entry_level e = InfoLevel /\
       entry_field "request_id" e = Some (FString "unknown") /\
       Logging logger next w r s =
         (Returned tt,
          if Enabled logger InfoLevel then set_logs (logs s2 ++ [e]) s2 else s2)) /\
  (forall logger next r s s2 v,
     ReqContext r = ctx ->
     next recorder r s = (Panicked v, s2) ->
     Enabled logger ErrorLevel = true ->
     let out := Recovery logger next recorder r s in
     fst out = Returned tt /\
     logs (snd out) = logs s2 ++ [panic_entry "unknown" (URL_Path r) v]) /\
  (forall r s, GetRequestID (ReqContext (request_in_chain r s)) <> EmptyString).
Proof.
  intros Hno. pose proof (GetRequestID_missing ctx Hno) as Hunk.
  split; [exact Hunk |]. split; [rewrite Hunk; discriminate |].
  split; [| split].
  - intros logger next w r s s2 Hctx Hnext.
    exists {| entry_level := InfoLevel; entry_msg := "request completed";
              entry_fields :=
                [("request_id", FString (GetRequestID (ReqContext r)));
                 ("method", FString (Method r));
                 ("path", FString (URL_Path r));
                 ("status", FInt (default 0
                    (statusCodes s2 !! fresh (dom (statusCodes s)))));
                 ("duration", FDuration (clock s2 - clock s));
                 ("remote_addr", FString (RemoteAddr r));
                 ("user_agent", FString (UserAgent r))] |}.
    split; [reflexivity |]. split.
    + rewrite Hctx, Hunk. reflexivity.
    + unfold Logging. unfold bind at 1 2. cbn [time_Now gets].
      unfold newResponseWriter at 1. unfold bind at 1.
      cbn [newResponseWriter snd] in Hnext. rewrite Hnext.
      unfold Logging_completed, logger_Info, log, time_Since, statusCode,
        bind, gets, modify.
      destruct (Enabled logger InfoLevel); reflexivity.
  - intros logger next r s s2 v Hctx Hnext Hen out. subst out.
    unfold Recovery, defer_recover. rewrite Hnext.
    unfold Recovery_deferred, logger_Error, log. rewrite Hen, Hctx, Hunk.
    unfold http_Error, recorder, rec_Write, rec_WriteHeader, checkWriteHeaderCode,
      bind, gets, modify, ret.
    cbn [Header_update Write WriteHeader response set_response set_logs logs
         upd_HeaderMap wroteHeader fst snd].
    destruct (wroteHeader (response s2)) eqn:Hw; world_simpl;
      rewrite ?Hw; world_simpl; split; reflexivity.
  - intros r s. unfold request_in_chain. cbn [WithContext ReqContext].
    rewrite GetRequestID_WithValue. apply request_id_nonempty.
Qed.

End MiddlewareFacts.

Lemma GetRequestID_unknown_witness :
  GetRequestID Background = "unknown".
Proof.
  apply (@GetRequestID_unknown exampleRuntime Background).
  intros id. discriminate.
Defined.

(** ** Cross-origin headers *)

Lemma cors_headers_set (h : Header) :
  header_Get (cors_headers h) "Access-Control-Allow-Origin" = "*" /\
  header_Get (cors_headers h) "Access-Control-Allow-Methods" = "GET, POST, OPTIONS" /\
  header_Get (cors_headers h) "Access-Control-Allow-Headers"
    = "Content-Type, X-Request-ID".
Proof.
  unfold cors_headers. repeat split.
  - rewrite !header_Get_Set_ne by discriminate. apply header_Get_Set.
  - rewrite header_Get_Set_ne by discriminate. apply header_Get_Set.
  - apply header_Get_Set.
Qed.

Lemma CORS_options (next : Handler) (w : ResponseWriter) (r : Request) :
  Method r = MethodOptions ->
  CORS next w r =
    (Header_update w (header_Set "Access-Control-Allow-Origin" "*") ;;
     Header_update w (header_Set "Access-Control-Allow-Methods" "GET, POST, OPTIONS") ;;
     Header_update w (header_Set "Access-Control-Allow-Headers"
                        "Content-Type, X-Request-ID") ;;
     WriteHeader w StatusNoContent).
Proof.
  intros Hm. unfold CORS. rewrite Hm. reflexivity.
Qed.

(** C5: for an OPTIONS request [CORS] never calls the wrapped handler
    (whatever the writer, its result is the same for every handler); on
    a response to which nothing has been written it returns with status
    204, an empty body and the three headers set.  For any other method
    the three headers are set on the header map and the wrapped handler
    is called with the same writer and the same request. *)
Theorem CORS_preflight_and_passthrough (next : Handler) (r : Request) (s : World) :
  (Method r = MethodOptions ->
     (forall w next', CORS next' w r = CORS next w r) /\
     (wroteHeader (response s) = false -> Body (response s) = [] ->
        let out := CORS next recorder r s in
        fst out = Returned tt /\
        Code (response (snd out)) = 204 /\
        Body (response (snd out)) = [] /\
        Result_Header (response (snd out)) = cors_headers (HeaderMap (response s)))) /\
  (Method r <> MethodOptions ->
     CORS next recorder r s =
       next recorder r
         (set_response (upd_HeaderMap cors_headers (response s)) s)) /\
  (forall h,
     header_Get (cors_headers h) "Access-Control-Allow-Origin" = "*" /\
     header_Get (cors_headers h) "Access-Control-Allow-Methods"
       = "GET, POST, OPTIONS" /\
     header_Get (cors_headers h) "Access-Control-Allow-Headers"
       = "Content-Type, X-Request-ID").
Proof.
  split; [| split; [| exact cors_headers_set]].
  - intros Hm. split.
    + intros w next'. rewrite !CORS_options by exact Hm. reflexivity.
    + intros Hw Hb out. subst out. rewrite CORS_options by exact Hm.
      unfold recorder, rec_WriteHeader, checkWriteHeaderCode, bind, gets, modify, ret.
      world_simpl. rewrite Hw. world_simpl. rewrite Hb.
      repeat split; reflexivity.
  - intros Hm. apply String.eqb_neq in Hm.
    unfold CORS. rewrite Hm. reflexivity.
Qed.

Lemma CORS_preflight_and_passthrough_witness :
  Code (response (snd (CORS partial_then_panic recorder
                         (exampleRequest "OPTIONS" "/readyz" ∅) exampleWorld))) = 204 /\
  fst (CORS partial_then_panic recorder
         (exampleRequest "POST" "/readyz" ∅) exampleWorld)
    = Panicked (AString "boom").
Proof.
  destruct (CORS_preflight_and_passthrough partial_then_panic
              (exampleRequest "OPTIONS" "/readyz" ∅) exampleWorld)
    as (Hopt & _ & _).
  destruct (CORS_preflight_and_passthrough partial_then_panic
              (exampleRequest "POST" "/readyz" ∅) exampleWorld)
    as (_ & Hother & _).
  split.
  - destruct (Hopt eq_refl) as (_ & Hfresh).
    destruct (Hfresh eq_refl eq_refl) as (_ & Hcode & _). exact Hcode.
  - rewrite Hother by discriminate. reflexivity.
Defined.

(** ** The middleware chain *)

Section ChainFacts.

Context `{Runtime}.

Lemma chain_calls_mux (logger : Logger) (mux : Handler) (r : Request) (s : World) :
  String.eqb (Method r) MethodOptions = false ->
  chain logger mux recorder r s =
    (defer_recover
       (mux (as_ResponseWriter (writer_in_chain s)) (request_in_chain r s))
       (Recovery_deferred logger (as_ResponseWriter (writer_in_chain s))
          (request_in_chain r s)) ;;
     Logging_completed logger (request_in_chain r s) (clock s) (writer_in_chain s))
    (world_in_chain r s).
Proof.
  intros Hm.
  unfold chain, RequestID, Logging, Recovery, CORS.
  unfold request_in_chain, world_in_chain, writer_in_chain, request_id.
  destruct (String.eqb (header_Get (ReqHeader r) "X-Request-ID") EmptyString) eqn:Hid.
  - unfold bind at 1 2 3. cbn. rewrite Hm. reflexivity.
  - unfold bind at 1 2 3. cbn. rewrite Hm. reflexivity.
Qed.

(** A pre-flight request goes through the outer three stages and stops
    in [CORS]: the router is not called. *)
Lemma chain_preflight_skips_mux (logger : Logger) (mux mux' : Handler)
    (r : Request) (s : World) :
  Method r = MethodOptions ->
  chain logger mux recorder r s = chain logger mux' recorder r s.
Proof.
  intros Hm. unfold chain, RequestID, Logging, Recovery, bind.
  destruct (if String.eqb (header_Get (ReqHeader r) "X-Request-ID") EmptyString
            then _ else _) as [[id | v] s1]; [| reflexivity].
  destruct (Header_update recorder (header_Set "X-Request-ID" id) s1) as [[u | v] s2];
    [| reflexivity].
  destruct (time_Now s2) as [[start | v] s3]; [| reflexivity].
  destruct (newResponseWriter recorder s3) as [[wrapped | v] s4]; [| reflexivity].
  assert (Hm' : forall ctx, Method (WithContext r ctx) = MethodOptions)
    by (intros ctx; exact Hm).
  rewrite (CORS_options mux _ _ (Hm' _)), (CORS_options mux' _ _ (Hm' _)).
  reflexivity.
Qed.

Lemma NewLogger_enables_error (lvl env : string) :
  Enabled (NewLogger lvl env) ErrorLevel = true.
Proof.
  unfold NewLogger, parseLogLevel, Enabled.
  destruct (String.eqb env "production"); cbn [min_level];
    destruct (String.eqb lvl "debug"); try reflexivity;
    destruct (String.eqb lvl "warn"); try reflexivity;
    destruct (String.eqb lvl "error"); reflexivity.
Qed.

Lemma GetRequestID_in_chain (r : Request) (s : World) :
  GetRequestID (ReqContext (request_in_chain r s)) = request_id r s.
Proof. reflexivity. Qed.

Lemma errors_app (l1 l2 : list Entry) : errors (l1 ++ l2) = errors l1 ++ errors l2.
Proof. apply List.filter_app. Qed.

Lemma world_in_chain_header (r : Request) (s : World) :
  header_Get (HeaderMap (response (world_in_chain r s))) "X-Request-ID"
    = request_id r s.
Proof.
  unfold world_in_chain. world_simpl. unfold cors_headers.
  rewrite !header_Get_Set_ne by discriminate.
  destruct (String.eqb (header_Get (ReqHeader r) "X-Request-ID") EmptyString);
    world_simpl; apply header_Get_Set.
Qed.

(** C1, as the code has it: when the router panics under the chain, the
    chain returns normally, having logged exactly one error-level entry,
    which carries the request's correlation id (the id that the chain
    had put on the response's X-Request-ID header before calling the
    router); only the info-level completion entry may follow it.
    [http.Error] is called whatever has been sent: its text and a
    newline are appended to the body.  If the header had not been
    written, the status is 500 and the response carries the
    X-Request-ID that the router left on the header map; if it had, the
    status and the headers already sent stay. *)
Theorem chain_recovers_panic (lvl env : string) (mux : Handler) (r : Request)
    (s s2 : World) (v : any) :
  Method r <> MethodOptions ->
  mux (as_ResponseWriter (writer_in_chain s)) (request_in_chain r s)
      (world_in_chain r s) = (Panicked v, s2) ->
  let out := chain (NewLogger lvl env) mux recorder r s in
  let id := request_id r s in
  fst out = Returned tt /\
  (exists tail,
     logs (snd out) = logs s2 ++ panic_entry id (URL_Path r) v :: tail /\
     errors tail = []) /\
  errors (logs (snd out)) = errors (logs s2) ++ [panic_entry id (URL_Path r) v] /\
  header_Get (HeaderMap (response (world_in_chain r s))) "X-Request-ID" = id /\
  Body (response (snd out))
    = Body (response s2) ++ [Bytes (internal_server_error +:+ newline)] /\
  (wroteHeader (response s2) = false ->
     Code (response (snd out)) = 500 /\
     header_Get (Result_Header (response (snd out))) "X-Request-ID"
       = header_Get (HeaderMap (response s2)) "X-Request-ID") /\
  (wroteHeader (response s2) = true ->
     Code (response (snd out)) = Code (response s2) /\
     snapHeader (response (snd out)) = snapHeader (response s2)).
Proof.
  intros Hm Hmux out id. subst out id.
  apply String.eqb_neq in Hm.
  destruct (chain (NewLogger lvl env) mux recorder r s) as [o sf] eqn:E.
  rewrite (chain_calls_mux _ _ _ _ Hm) in E.
  unfold bind at 1 in E. unfold defer_recover in E. rewrite Hmux in E.
  unfold Recovery_deferred in E. rewrite GetRequestID_in_chain in E.
  unfold logger_Error, log in E. rewrite NewLogger_enables_error in E.
  unfold http_Error, Logging_completed, logger_Info, log in E.
  unfold as_ResponseWriter, writer_in_chain, responseWriter_WriteHeader,
    recorder, rec_Write, rec_WriteHeader, checkWriteHeaderCode, statusCode,
    time_Since in E.
  world_simpl_in E. unfold bind, gets, modify, ret in E. world_simpl_in E.
  destruct (wroteHeader (response s2)) eqn:Hw; world_simpl_in E;
    rewrite ?Hw in E; world_simpl_in E;
    destruct (Enabled (NewLogger lvl env) InfoLevel); injection E as <- <-;
    world_simpl; cbn [Result_Header snapHeader];
    rewrite ?errors_app; cbn [errors List.filter is_error entry_level panic_entry];
    rewrite ?app_nil_r.
  all: split; [reflexivity |].
  all: split; [eexists; split; [rewrite <- ?app_assoc; reflexivity | reflexivity] |].
  all: split; [reflexivity |].
  all: split; [apply world_in_chain_header |].
  all: split; [reflexivity |].
  all: split; intros Hw'; try discriminate Hw'; split; try reflexivity.
  all: rewrite !header_Get_Set_ne by discriminate;
    apply header_Get_Del_ne; discriminate.
Qed.

End ChainFacts.

Lemma chain_recovers_panic_witness :
  let out := chain (H := exampleRuntime) (NewLogger "info" "production")
               panic_at_once recorder
               (exampleRequest "GET" "/api/v1/status" {[ "X-Request-ID" := ["abc-123"] ]})
               exampleWorld in
  fst out = Returned tt /\
  Code (response (snd out)) = 500 /\
  Body (response (snd out)) = [Bytes (internal_server_error +:+ newline)] /\
  header_Get (Result_Header (response (snd out))) "X-Request-ID" = "abc-123" /\
  errors (logs (snd out))
    = [panic_entry (H := exampleRuntime) "abc-123" "/api/v1/status" (AError "nil map")].
Proof.
  pose proof (@chain_recovers_panic exampleRuntime "info" "production" panic_at_once
    (exampleRequest "GET" "/api/v1/status" {[ "X-Request-ID" := ["abc-123"] ]})
    exampleWorld
    (world_in_chain
       (exampleRequest "GET" "/api/v1/status" {[ "X-Request-ID" := ["abc-123"] ]})
       exampleWorld)
    (AError "nil map")) as Hthm.
  destruct Hthm as (Hret & _ & Herr & Hid & Hbody & Hfresh & _);
    [discriminate | reflexivity |].
  destruct Hfresh as [Hcode Hhdr]; [vm_compute; reflexivity |].
  cbv zeta. split; [exact Hret |]. split; [exact Hcode |].
  split; [rewrite Hbody; vm_compute; reflexivity |].
  split; [rewrite Hhdr, Hid; vm_compute; reflexivity |].
  rewrite Herr. vm_compute. reflexivity.
Defined.

(** C1 as the specification words it fails on a handler that has
    written part of its response before it panics: the handler panics,
    yet the status the caller gets is the 200 that was already sent, and
    the error text is written all the same, after what was sent. *)
Lemma chain_partial_response_counterexample :
  let r := exampleRequest "GET" "/api/v1/status" {[ "X-Request-ID" := ["abc-123"] ]} in
  let out := chain (H := exampleRuntime) (NewLogger "info" "production")
               partial_then_panic recorder r exampleWorld in
  fst (partial_then_panic (as_ResponseWriter (writer_in_chain exampleWorld))
         (request_in_chain r exampleWorld) (world_in_chain r exampleWorld))
    = Panicked (AString "boom") /\
  Code (response (snd out)) = 200 /\
  Code (response (snd out)) <> 500 /\
  Body (response (snd out))
    = [Bytes "partial"; Bytes (internal_server_error +:+ newline)] /\
  ~ (Code (response (snd out)) = 500 /\
     Body (response (snd out)) = [Bytes internal_server_error]).
Proof.
  cbv zeta.
  assert (Hcode : Code (response (snd (chain (H := exampleRuntime)
            (NewLogger "info" "production") partial_then_panic recorder
            (exampleRequest "GET" "/api/v1/status" {[ "X-Request-ID" := ["abc-123"] ]})
            exampleWorld))) = 200) by (vm_compute; reflexivity).
  split; [vm_compute; reflexivity |].
  split; [exact Hcode |].
  split; [rewrite Hcode; discriminate |].
  split; [vm_compute; reflexivity |].
  intros [H500 _]. rewrite Hcode in H500. discriminate H500.
Qed.

(** ** Health and info handlers *)

Section HandlerFacts.

Context `{Runtime}.

Lemma Readiness_run (h : HealthHandler) (r : Request) (s : World) :
  let isReady := default false (atomics s !! hh_ready h) in
  let out := serve (Readiness h) r s in
  fst out = Returned tt /\
  Code (response (snd out))
    = (if isReady then StatusOK else StatusServiceUnavailable) /\
  body_field "status" (response (snd out))
    = Some (JString (if isReady then "ready" else "not_ready")) /\
  atomics (snd out) = atomics s /\
  history (snd out) = history s.
Proof.
  cbv zeta. unfold serve, Readiness, json_Encode, atomic_Load, time_Since, time_Now,
    recorder, rec_Write, rec_WriteHeader, checkWriteHeaderCode, bind, gets, modify, ret.
  world_simpl.
  destruct (default false (atomics s !! hh_ready h)); cbn [negb]; world_simpl;
    repeat split; reflexivity.
Qed.

Lemma Liveness_run (h : HealthHandler) (r : Request) (s : World) :
  serve (Liveness h) r s =
    (Returned tt,
     set_response
       {| Code := 200;
          HeaderMap := header_Set "Content-Type" "application/json" ∅;
          Body := [JSONLine (JObject
                     [("status", JString "alive");
                      ("timestamp", JString (time_Format_RFC3339 (clock s)))])];
          wroteHeader := true;
          snapHeader := Some (header_Set "Content-Type" "application/json" ∅) |}
       s).
Proof. reflexivity. Qed.

Lemma SetNotReady_run (h : HealthHandler) (s : World) :
  fst (SetNotReady h s) = Returned tt /\
  atomics (snd (SetNotReady h s)) = <[hh_ready h := false]> (atomics s) /\
  history (snd (SetNotReady h s)) = history s ++ [Stored (hh_ready h) false].
Proof.
  unfold SetNotReady, atomic_Store, logger_Info, log, bind, modify.
  destruct (Enabled (hh_logger h) InfoLevel); repeat split; reflexivity.
Qed.

Lemma health_call_keeps_not_ready (h : HealthHandler) (c : HealthCall) (s : World) :
  atomics s !! hh_ready h = Some false ->
  fst (health_call h c s) = Returned tt /\
  atomics (snd (health_call h c s)) !! hh_ready h = Some false.
Proof.
  intros Hflag. destruct c as [| r | r]; cbn [health_call].
  - destruct (SetNotReady_run h s) as (Hret & Hat & _).
    split; [exact Hret |]. rewrite Hat. apply lookup_insert_eq.
  - rewrite Liveness_run. split; [reflexivity | exact Hflag].
  - destruct (Readiness_run h r s) as (Hret & _ & _ & Hat & _).
    split; [exact Hret |]. rewrite Hat. exact Hflag.
Qed.

Lemma health_calls_keep_not_ready (h : HealthHandler) (cs : list HealthCall) :
  forall s : World,
    atomics s !! hh_ready h = Some false ->
    fst (health_calls h cs s) = Returned tt /\
    atomics (snd (health_calls h cs s)) !! hh_ready h = Some false.
Proof.
  induction cs as [| c rest IH]; intros s Hflag.
  - split; [reflexivity | exact Hflag].
  - cbn [health_calls]. unfold bind.
    destruct (health_call_keeps_not_ready h c s Hflag) as [Hret Hflag'].
    destruct (health_call h c s) as [o s1]. cbn [fst snd] in Hret, Hflag'.
    subst o. apply IH. exact Hflag'.
Qed.

Lemma NewHealthHandler_leaves_flags (logger : Logger) (cfg : Config)
    (cell : nat) (b : bool) (s : World) :
  atomics s !! cell = Some b ->
  atomics (snd (NewHealthHandler logger cfg s)) !! cell = Some b.
Proof.
  intros Hcell.
  unfold NewHealthHandler, time_Now, atomic_New, atomic_Store, bind, gets,
    modify, ret.
  world_simpl. cbn [hh_ready].
  assert (Hne : fresh (dom (atomics s)) <> cell).
  { intros Heq. apply (is_fresh (dom (atomics s))).
    rewrite Heq. apply elem_of_dom. rewrite Hcell. eauto. }
  rewrite !lookup_insert_ne by exact Hne. exact Hcell.
Qed.

(** C2: a new health handler has its flag at true; while the flag is
    true the readiness probe answers 200 with status ready; once
    [SetNotReady] has run it answers 503 with status not_ready; and no
    sequence of calls of the handler's methods brings a false flag back
    to true, so the probe goes on answering 503.  Building another
    handler does not touch the flag either. *)
Theorem readiness_is_one_way (logger : Logger) (cfg : Config) (s : World) :
  (exists h s0,
     NewHealthHandler logger cfg s = (Returned h, s0) /\
     atomics s0 !! hh_ready h = Some true) /\
  (forall h r s1,
     atomics s1 !! hh_ready h = Some true ->
     let out := serve (Readiness h) r s1 in
     fst out = Returned tt /\
     Code (response (snd out)) = 200 /\
     body_field "status" (response (snd out)) = Some (JString "ready")) /\
  (forall h r s1,
     let s2 := snd (SetNotReady h s1) in
     let out := serve (Readiness h) r s2 in
     fst (SetNotReady h s1) = Returned tt /\
     atomics s2 !! hh_ready h = Some false /\
     fst out = Returned tt /\
     Code (response (snd out)) = 503 /\
     body_field "status" (response (snd out)) = Some (JString "not_ready")) /\
  (forall h calls r s1,
     atomics s1 !! hh_ready h = Some false ->
     let s2 := snd (health_calls h calls s1) in
     let out := serve (Readiness h) r s2 in
     fst (health_calls h calls s1) = Returned tt /\
     atomics s2 !! hh_ready h = Some false /\
     Code (response (snd out)) = 503 /\
     body_field "status" (response (snd out)) = Some (JString "not_ready")) /\
  (forall h logger' cfg' s1,
     atomics s1 !! hh_ready h = Some false ->
     atomics (snd (NewHealthHandler logger' cfg' s1)) !! hh_ready h = Some false).
Proof.
  split; [| split; [| split; [| split]]];
    [| | | | intros h logger' cfg' s1; apply NewHealthHandler_leaves_flags].
  - unfold NewHealthHandler, time_Now, atomic_New, atomic_Store, bind, gets,
      modify, ret.
    eexists. eexists. split; [reflexivity |].
    world_simpl. cbn [hh_ready]. apply lookup_insert_eq.
  - intros h r s1 Hflag out. subst out.
    destruct (Readiness_run h r s1) as (Hret & Hcode & Hst & _).
    rewrite Hflag in Hcode, Hst. auto.
  - intros h r s1 s2 out. subst out s2.
    destruct (SetNotReady_run h s1) as (Hret & Hat & _).
    assert (Hflag : atomics (snd (SetNotReady h s1)) !! hh_ready h = Some false)
      by (rewrite Hat; apply lookup_insert_eq).
    destruct (Readiness_run h r (snd (SetNotReady h s1))) as (Hret' & Hcode & Hst & _).
    rewrite Hflag in Hcode, Hst. auto.
  - intros h calls r s1 Hflag s2 out. subst out s2.
    destruct (health_calls_keep_not_ready h calls s1 Hflag) as [Hret Hflag'].
    destruct (Readiness_run h r (snd (health_calls h calls s1)))
      as (_ & Hcode & Hst & _).
    rewrite Hflag' in Hcode, Hst. auto.
Qed.

(** C6: the liveness probe returns 200 with status alive from every
    world, leaves the atomic cells alone, and its response is the same
    whatever the cells hold and whichever handler value it is called on:
    it does not read the readiness flag. *)
Theorem Liveness_always_alive (h : HealthHandler) (r : Request) (s : World) :
  let out := serve (Liveness h) r s in
  fst out = Returned tt /\
  Code (response (snd out)) = 200 /\
  body_field "status" (response (snd out)) = Some (JString "alive") /\
  atomics (snd out) = atomics s /\
  (forall flags h',
     let out' := serve (Liveness h') r (set_atomics flags s) in
     fst out' = fst out /\ response (snd out') = response (snd out)).
Proof.
  cbv zeta. rewrite Liveness_run. repeat split.
Qed.

(** C8: the info handler answers 200 and reports the service name,
    version and environment of its configuration; two calls on the same
    handler, from any two worlds and for any two requests, agree on the
    three fields; with the test configuration they are test-api and
    0.0.1. *)
Theorem Info_is_stable (a : APIHandler) (r1 r2 : Request) (s1 s2 : World) :
  let out1 := serve (Info a) r1 s1 in
  let out2 := serve (Info a) r2 s2 in
  fst out1 = Returned tt /\
  Code (response (snd out1)) = 200 /\
  body_field "service" (response (snd out1))
    = Some (JString (ServiceName (ah_cfg a))) /\
  body_field "version" (response (snd out1))
    = Some (JString (Version (ah_cfg a))) /\
  body_field "environment" (response (snd out1))
    = Some (JString (Environment (ah_cfg a))) /\
  body_field "service" (response (snd out2))
    = body_field "service" (response (snd out1)) /\
  body_field "version" (response (snd out2))
    = body_field "version" (response (snd out1)) /\
  body_field "environment" (response (snd out2))
    = body_field "environment" (response (snd out1)) /\
  (ServiceName (ah_cfg a) = "test-api" -> Version (ah_cfg a) = "0.0.1" ->
     Code (response (snd out1)) = 200 /\
     body_field "service" (response (snd out1)) = Some (JString "test-api") /\
     body_field "version" (response (snd out1)) = Some (JString "0.0.1")).
Proof.
  cbv zeta. do 8 (split; [reflexivity |]).
  intros Hname Hversion. rewrite <- Hname, <- Hversion.
  repeat split; reflexivity.
Qed.

End HandlerFacts.

Lemma readiness_is_one_way_witness :
  Code (response (snd (serve (@Readiness exampleRuntime testHealthHandler)
                         (exampleRequest "GET" "/readyz" ∅)
                         (worldWithFlag true)))) = 200 /\
  Code (response (snd (serve (@Readiness exampleRuntime testHealthHandler)
                         (exampleRequest "GET" "/readyz" ∅)
                         (snd (@health_calls exampleRuntime testHealthHandler
                                 [CallReadiness (exampleRequest "GET" "/readyz" ∅);
                                  CallLiveness (exampleRequest "GET" "/healthz" ∅);
                                  CallSetNotReady]
                                 (worldWithFlag false)))))) = 503.
Proof.
  destruct (@readiness_is_one_way exampleRuntime testLogger testConfig exampleWorld)
    as (_ & Hready & _ & Hstays & _).
  split.
  - apply (Hready testHealthHandler (exampleRequest "GET" "/readyz" ∅)
             (worldWithFlag true)).
    vm_compute. reflexivity.
  - apply (Hstays testHealthHandler
             [CallReadiness (exampleRequest "GET" "/readyz" ∅);
              CallLiveness (exampleRequest "GET" "/healthz" ∅);
              CallSetNotReady]
             (exampleRequest "GET" "/readyz" ∅) (worldWithFlag false)).
    vm_compute. reflexivity.
Defined.

Lemma Info_is_stable_witness :
  body_field "service"
    (response (snd (serve (@Info exampleRuntime testAPIHandler)
                      (exampleRequest "GET" "/api/v1/info" ∅) exampleWorld)))
    = Some (JString "test-api").
Proof.
  apply (@Info_is_stable exampleRuntime testAPIHandler
           (exampleRequest "GET" "/api/v1/info" ∅)
           (exampleRequest "GET" "/api/v1/info" ∅) exampleWorld exampleWorld);
    reflexivity.
Defined.

(** ** Shutdown *)

Section LifecycleFacts.

Context `{Runtime}.

Lemma log_run (lg : Logger) (l : Level) (msg : string)
    (fields : list (string * FieldValue)) (s : World) :
  fst (log lg l msg fields s) = Returned tt /\
  history (snd (log lg l msg fields s)) = history s /\
  atomics (snd (log lg l msg fields s)) = atomics s.
Proof.
  unfold log, modify. destruct (Enabled lg l); repeat split; reflexivity.
Qed.

Lemma shutdown_run (app : App) (sig : Signal) (drained : option any) (s : World) :
  let out := shutdown app sig drained s in
  let cell := hh_ready (app_healthHandler app) in
  fst out = Returned tt /\
  history (snd out)
    = history s ++ [Stored cell false; ShutdownCalled (ShutdownTimeout (app_cfg app))] /\
  atomics (snd out) = <[cell := false]> (atomics s).
Proof.
  cbv zeta. unfold shutdown, SetNotReady, server_Shutdown, atomic_Store,
    logger_Info, logger_Error, log, bind, modify, ret.
  destruct (Enabled (app_logger app) InfoLevel),
    (Enabled (hh_logger (app_healthHandler app)) InfoLevel),
    (Enabled (app_logger app) ErrorLevel), drained;
    world_simpl; rewrite <- ?app_assoc; repeat split; reflexivity.
Qed.

Lemma startup_run (env : Environ) (s : World) :
  exists app s1,
    startup env s = (Returned app, s1) /\
    app_cfg app = Load env /\
    history s1 = history s ++ [Stored (hh_ready (app_healthHandler app)) true].
Proof.
  unfold startup, NewHealthHandler, NewAPIHandler, time_Now, atomic_New,
    atomic_Store, logger_Info, log, bind, gets, modify, ret.
  destruct (Enabled (NewLogger (LogLevel (Load env)) (Environment (Load env))) InfoLevel);
    eexists; eexists; (split; [reflexivity |]); split; reflexivity.
Qed.

Lemma startup_flag (env : Environ) (s : World) :
  exists app s1,
    startup env s = (Returned app, s1) /\
    history s1 = history s ++ [Stored (hh_ready (app_healthHandler app)) true] /\
    atomics s1 !! hh_ready (app_healthHandler app) = Some true.
Proof.
  unfold startup, NewHealthHandler, NewAPIHandler, time_Now, atomic_New,
    atomic_Store, logger_Info, log, bind, gets, modify, ret.
  destruct (Enabled (NewLogger (LogLevel (Load env)) (Environment (Load env))) InfoLevel);
    eexists; eexists; (split; [reflexivity |]);
    (split; [reflexivity |]); world_simpl; cbn [app_healthHandler hh_ready];
    apply lookup_insert_eq.
Qed.

Lemma server_goroutine_run (app : App) (listen : ListenOutcome) (s : World) :
  exists s1,
    server_goroutine app listen s
      = (Returned (match listen with Listening => None | ListenFailed _ => Some 1 end),
         s1) /\
    history s1 = history s /\ atomics s1 = atomics s.
Proof.
  unfold server_goroutine, logger_Info, log, bind, modify, ret.
  destruct listen as [| err];
    destruct (Enabled (app_logger app) InfoLevel);
    try destruct (Enabled (app_logger app) FatalLevel);
    eexists; (split; [reflexivity |]); split; reflexivity.
Qed.

(** C4: with the server listening, from the receipt of a signal [main]
    stores false in the readiness flag and only then calls
    [Server.Shutdown] with the configured timeout, each once; it
    returns, so the process exits with status 0, whether the server
    reports a completed drain or the error of a drain cut short, and
    whatever signals follow the first.  Before any signal nothing of
    this has happened and the process runs.  If [ListenAndServe] failed
    instead, the process has exited with status 1 and the sequence
    never runs, whatever signals are sent. *)
Theorem shutdown_in_order (env : Environ) (sig : Signal) (later : list Signal)
    (drained : option any) (s : World) :
  (forall app s1,
     let out := shutdown app sig drained s1 in
     fst out = Returned tt /\
     history (snd out)
       = history s1 ++ [Stored (hh_ready (app_healthHandler app)) false;
                        ShutdownCalled (ShutdownTimeout (app_cfg app))] /\
     atomics (snd out) !! hh_ready (app_healthHandler app) = Some false) /\
  (exists cell,
     let out := run env Listening (sig :: later) drained s in
     fst out = Exited 0 /\
     history (snd out)
       = history s ++ [Stored cell true; Stored cell false;
                       ShutdownCalled (ShutdownTimeout (Load env))] /\
     atomics (snd out) !! cell = Some false) /\
  (exists cell,
     let out := run env Listening [] drained s in
     fst out = Running /\
     history (snd out) = history s ++ [Stored cell true]) /\
  (forall err signals,
     exists cell,
       let out := run env (ListenFailed err) signals drained s in
       fst out = Exited 1 /\
       history (snd out) = history s ++ [Stored cell true] /\
       atomics (snd out) !! cell = Some true).
Proof.
  split; [| split; [| split]].
  - intros app s1 out. subst out.
    destruct (shutdown_run app sig drained s1) as (Hret & Hhist & Hat).
    split; [exact Hret |]. split; [exact Hhist |].
    rewrite Hat. apply lookup_insert_eq.
  - destruct (startup_run env s) as (app & s1 & Hstart & Hcfg & Hhist).
    destruct (server_goroutine_run app Listening s1) as (s2 & Hgo & Hhist2 & _).
    exists (hh_ready (app_healthHandler app)). cbv zeta.
    destruct (shutdown_run app sig drained s2) as (Hret & Hhist' & Hat).
    assert (Hrun : run env Listening (sig :: later) drained s
                   = (Exited 0, snd (shutdown app sig drained s2))).
    { unfold run, main, bind. rewrite Hstart, Hgo.
      destruct (shutdown app sig drained s2) as [o s3].
      cbn [fst] in Hret. subst o. reflexivity. }
    rewrite Hrun. cbn [fst snd]. split; [reflexivity |]. split.
    + rewrite Hhist', Hhist2, Hhist, Hcfg, <- app_assoc. reflexivity.
    + rewrite Hat. apply lookup_insert_eq.
  - destruct (startup_run env s) as (app & s1 & Hstart & Hcfg & Hhist).
    destruct (server_goroutine_run app Listening s1) as (s2 & Hgo & Hhist2 & _).
    exists (hh_ready (app_healthHandler app)). cbv zeta.
    assert (Hrun : run env Listening [] drained s = (Running, s2)).
    { unfold run, main, bind. rewrite Hstart, Hgo. reflexivity. }
    rewrite Hrun. split; [reflexivity |]. cbn [snd]. rewrite Hhist2. exact Hhist.
  - intros err signals.
    destruct (startup_flag env s) as (app & s1 & Hstart & Hhist & Hflag).
    destruct (server_goroutine_run app (ListenFailed err) s1)
      as (s2 & Hgo & Hhist2 & Hat2).
    exists (hh_ready (app_healthHandler app)). cbv zeta.
    assert (Hrun : run env (ListenFailed err) signals drained s = (Exited 1, s2)).
    { unfold run, main, bind. rewrite Hstart, Hgo. reflexivity. }
    rewrite Hrun. cbn [fst snd]. split; [reflexivity |].
    split; [rewrite Hhist2; exact Hhist | rewrite Hat2; exact Hflag].
Qed.

End LifecycleFacts.

(** * Further properties of the code *)

(** ** The chain on its other paths *)

Section ChainPaths.

Context `{Runtime}.

Lemma http_Error_recorder (msg : string) (code : Z) (s : World) :
  100 <= code <= 999 ->
  http_Error recorder msg code s =
    (Returned tt, set_response (after_http_Error msg code (response s)) s).
Proof.
  intros Hcode.
  unfold http_Error, recorder, rec_Write, rec_WriteHeader, checkWriteHeaderCode,
    bind, gets, modify, ret.
  world_simpl.
  assert (Hok : (code <? 100) || (999 <? code) = false).
  { apply orb_false_iff. split; apply Z.ltb_ge; lia. }
  rewrite Hok. unfold after_http_Error, error_headers.
  destruct (wroteHeader (response s)) eqn:Hw; world_simpl; rewrite ?Hw;
    world_simpl; destruct s as [[c hm b w sn] lg ck en sc at_ hi];
    cbn in Hw; subst w; reflexivity.
Qed.

Lemma chain_panic_run (logger : Logger) (mux : Handler) (r : Request)
    (s s2 : World) (v : any) :
  Method r <> MethodOptions ->
  mux (as_ResponseWriter (writer_in_chain s)) (request_in_chain r s)
      (world_in_chain r s) = (Panicked v, s2) ->
  Enabled logger ErrorLevel = true ->
  let l := fresh (dom (statusCodes s)) in
  let s3 := set_logs (logs s2 ++ [panic_entry (request_id r s) (URL_Path r) v]) s2 in
  let s4 := set_statusCodes (<[l := 500]> (statusCodes s3)) s3 in
  let s5 := set_response (after_http_Error internal_server_error 500 (response s4)) s4 in
  chain logger mux recorder r s =
    (Returned tt,
     logged logger (completion_entry (request_in_chain r s) 500 (clock s2 - clock s)) s5).
Proof.
  intros Hm Hmux Hen. cbv zeta. apply String.eqb_neq in Hm.
  rewrite (chain_calls_mux _ _ _ _ Hm).
  unfold bind at 1. unfold defer_recover. rewrite Hmux.
  unfold Recovery_deferred. rewrite GetRequestID_in_chain.
  unfold logger_Error, log. rewrite Hen.
  unfold http_Error, Logging_completed, logger_Info, log, logged,
    completion_entry, after_http_Error, error_headers.
  unfold as_ResponseWriter, writer_in_chain, responseWriter_WriteHeader,
    recorder, rec_Write, rec_WriteHeader, checkWriteHeaderCode, statusCode,
    time_Since.
  world_simpl. unfold bind, gets, modify, ret. world_simpl.
  cbn [entry_level panic_entry].
  destruct (wroteHeader (response s2)) eqn:Hw; world_simpl; rewrite ?Hw;
    world_simpl; rewrite ?Hw; world_simpl; rewrite lookup_insert_eq;
    cbn [default]; destruct (Enabled logger InfoLevel); reflexivity.
Qed.

Lemma chain_return_run (logger : Logger) (mux : Handler) (r : Request)
    (s s2 : World) :
  Method r <> MethodOptions ->
  mux (as_ResponseWriter (writer_in_chain s)) (request_in_chain r s)
      (world_in_chain r s) = (Returned tt, s2) ->
  chain logger mux recorder r s =
    (Returned tt,
     logged logger
       (completion_entry (request_in_chain r s)
          (default 0 (statusCodes s2 !! fresh (dom (statusCodes s))))
          (clock s2 - clock s)) s2).
Proof.
  intros Hm Hmux. apply String.eqb_neq in Hm.
  rewrite (chain_calls_mux _ _ _ _ Hm).
  unfold bind at 1. unfold defer_recover. rewrite Hmux.
  unfold Recovery_deferred, ret, Logging_completed, logger_Info, log, logged,
    completion_entry, time_Since, statusCode, writer_in_chain, bind, gets, modify.
  world_simpl. cbn [entry_level]. reflexivity.
Qed.

Lemma errors_logged_info (lg : Logger) (e : Entry) (s : World) :
  entry_level e = InfoLevel ->
  errors (logs (logged lg e s)) = errors (logs s).
Proof.
  intros Hlvl. unfold logged. destruct (Enabled lg (entry_level e)); [| reflexivity].
  world_simpl. rewrite errors_app. unfold errors at 2. cbn [List.filter].
  unfold is_error. rewrite Hlvl. apply app_nil_r.
Qed.

(** X1: when the router returns, the chain returns with the response
    exactly as the router left it, adds no error-level entry, and (if
    the logger lets info through) appends the one completion entry,
    which carries the request's correlation id, method and path. *)
Theorem chain_passes_response_through (logger : Logger) (mux : Handler)
    (r : Request) (s s2 : World) :
  Method r <> MethodOptions ->
  mux (as_ResponseWriter (writer_in_chain s)) (request_in_chain r s)
      (world_in_chain r s) = (Returned tt, s2) ->
  let out := chain logger mux recorder r s in
  fst out = Returned tt /\
  response (snd out) = response s2 /\
  errors (logs (snd out)) = errors (logs s2) /\
  (Enabled logger InfoLevel = false -> logs (snd out) = logs s2) /\
  (Enabled logger InfoLevel = true ->
     exists status duration,
       logs (snd out)
         = logs s2 ++ [completion_entry (request_in_chain r s) status duration] /\
       entry_field "request_id"
         (completion_entry (request_in_chain r s) status duration)
         = Some (FString (request_id r s)) /\
       entry_field "method"
         (completion_entry (request_in_chain r s) status duration)
         = Some (FString (Method r)) /\
       entry_field "path"
         (completion_entry (request_in_chain r s) status duration)
         = Some (FString (URL_Path r))).
Proof.
  intros Hm Hmux out. subst out. rewrite (chain_return_run _ _ _ _ _ Hm Hmux).
  cbn [fst snd]. split; [reflexivity |].
  split; [unfold logged; destruct (Enabled logger _); reflexivity |].
  split; [apply errors_logged_info; reflexivity |].
  unfold logged. cbn [entry_level completion_entry].
  split; intros Hen; rewrite Hen; [reflexivity |].
  eexists. eexists. split; [reflexivity |]. repeat split.
Qed.

(** X2: the log records the status of the error reply even when that
    reply could not be sent.  After a recovered panic the completion
    entry says 500 and follows the panic entry; if the router had
    already written the header, the status that went out is the
    router's, not 500. *)
Theorem logged_status_after_panic (logger : Logger) (mux : Handler) (r : Request)
    (s s2 : World) (v : any) :
  Method r <> MethodOptions ->
  mux (as_ResponseWriter (writer_in_chain s)) (request_in_chain r s)
      (world_in_chain r s) = (Panicked v, s2) ->
  Enabled logger ErrorLevel = true ->
  Enabled logger InfoLevel = true ->
  let out := chain logger mux recorder r s in
  logs (snd out)
    = logs s2 ++ [panic_entry (request_id r s) (URL_Path r) v;
                  completion_entry (request_in_chain r s) 500 (clock s2 - clock s)] /\
  entry_field "status"
    (completion_entry (request_in_chain r s) 500 (clock s2 - clock s))
    = Some (FInt 500) /\
  (wroteHeader (response s2) = true ->
     Code (response (snd out)) = Code (response s2)).
Proof.
  intros Hm Hmux Herr Hinfo out. subst out.
  rewrite (chain_panic_run _ _ _ _ _ _ Hm Hmux Herr).
  unfold logged. cbn [entry_level completion_entry]. rewrite Hinfo.
  world_simpl. split; [rewrite <- app_assoc; reflexivity |].
  split; [reflexivity |].
  intros Hw. unfold after_http_Error. world_simpl. rewrite Hw. reflexivity.
Qed.

(** X3: the error reply of a recovered panic is labelled as plain text.
    When the header had not been written, the response carries
    Content-Type text/plain; charset=utf-8 and X-Content-Type-Options
    nosniff, whatever Content-Type the router had set, has no
    Content-Length, and keeps every other header the router left on the
    map; so after a router that left the map as it found it, the three
    CORS headers and the X-Request-ID are on the error reply. *)
Theorem recovered_reply_headers (logger : Logger) (mux : Handler) (r : Request)
    (s s2 : World) (v : any) :
  Method r <> MethodOptions ->
  mux (as_ResponseWriter (writer_in_chain s)) (request_in_chain r s)
      (world_in_chain r s) = (Panicked v, s2) ->
  Enabled logger ErrorLevel = true ->
  wroteHeader (response s2) = false ->
  let sent := Result_Header (response (snd (chain logger mux recorder r s))) in
  header_Get sent "Content-Type" = "text/plain; charset=utf-8" /\
  header_Get sent "X-Content-Type-Options" = "nosniff" /\
  sent !! "Content-Length" = None /\
  (forall key,
     key <> "Content-Type" -> key <> "X-Content-Type-Options" ->
     key <> "Content-Length" ->
     sent !! key = HeaderMap (response s2) !! key) /\
  (HeaderMap (response s2) = HeaderMap (response (world_in_chain r s)) ->
     header_Get sent "X-Request-ID" = request_id r s /\
     header_Get sent "Access-Control-Allow-Origin" = "*" /\
     header_Get sent "Access-Control-Allow-Methods" = "GET, POST, OPTIONS" /\
     header_Get sent "Access-Control-Allow-Headers" = "Content-Type, X-Request-ID").
Proof.
  intros Hm Hmux Herr Hw sent. subst sent.
  rewrite (chain_panic_run _ _ _ _ _ _ Hm Hmux Herr).
  assert (Hsent : forall lg e s0,
            Result_Header (response (logged lg e s0)) = Result_Header (response s0))
    by (intros lg e s0; unfold logged; destruct (Enabled lg _); reflexivity).
  cbn [snd]. rewrite Hsent. world_simpl.
  unfold after_http_Error, Result_Header. world_simpl. rewrite Hw.
  cbn [snapHeader]. unfold error_headers.
  assert (Hother : forall key,
            key <> "Content-Type" -> key <> "X-Content-Type-Options" ->
            key <> "Content-Length" ->
            header_Set "X-Content-Type-Options" "nosniff"
              (header_Set "Content-Type" "text/plain; charset=utf-8"
                 (header_Del "Content-Length" (HeaderMap (response s2)))) !! key
            = HeaderMap (response s2) !! key).
  { intros key H1 H2 H3. unfold header_Set, header_Del.
    rewrite !lookup_insert_ne by congruence.
    apply lookup_delete_ne. congruence. }
  split; [rewrite header_Get_Set_ne by discriminate; apply header_Get_Set |].
  split; [apply header_Get_Set |].
  split.
  { unfold header_Set, header_Del. rewrite !lookup_insert_ne by discriminate.
    apply lookup_delete_eq. }
  split; [exact Hother |].
  intros Hsame.
  assert (Hget : forall key,
            key <> "Content-Type" -> key <> "X-Content-Type-Options" ->
            key <> "Content-Length" ->
            header_Get
              (header_Set "X-Content-Type-Options" "nosniff"
                 (header_Set "Content-Type" "text/plain; charset=utf-8"
                    (header_Del "Content-Length" (HeaderMap (response s2))))) key
            = header_Get (HeaderMap (response (world_in_chain r s))) key).
  { intros key H1 H2 H3. unfold header_Get at 1. rewrite Hother by assumption.
    rewrite Hsame. reflexivity. }
  rewrite !Hget by discriminate.
  split; [apply world_in_chain_header |].
  unfold world_in_chain. world_simpl. apply cors_headers_set.
Qed.

End ChainPaths.

Lemma chain_passes_response_through_witness :
  let out := chain (H := exampleRuntime) testLogger
               (scripted [OpWriteHeader 202; OpWrite (Bytes "accepted")]) recorder
               (exampleRequest "POST" "/api/v1/info" ∅) exampleWorld in
  Code (response (snd out)) = 202 /\ errors (logs (snd out)) = [].
Proof.
  cbv zeta.
  destruct (@chain_passes_response_through exampleRuntime testLogger
              (scripted [OpWriteHeader 202; OpWrite (Bytes "accepted")])
              (exampleRequest "POST" "/api/v1/info" ∅) exampleWorld
              (snd (scripted [OpWriteHeader 202; OpWrite (Bytes "accepted")]
                      (as_ResponseWriter (writer_in_chain exampleWorld))
                      (request_in_chain (exampleRequest "POST" "/api/v1/info" ∅)
                         exampleWorld)
                      (world_in_chain (exampleRequest "POST" "/api/v1/info" ∅)
                         exampleWorld))))
    as (_ & Hresp & Herr & _); [discriminate | reflexivity |].
  rewrite Hresp, Herr. split; vm_compute; reflexivity.
Defined.

Lemma logged_status_after_panic_witness :
  let out := chain (H := exampleRuntime) testLogger partial_then_panic recorder
               (exampleRequest "GET" "/api/v1/status" ∅) exampleWorld in
  Code (response (snd out)) = 200 /\
  exists e, last (logs (snd out)) = Some e /\ entry_field "status" e = Some (FInt 500).
Proof.
  cbv zeta.
  destruct (@logged_status_after_panic exampleRuntime testLogger partial_then_panic
              (exampleRequest "GET" "/api/v1/status" ∅) exampleWorld
              (snd (partial_then_panic
                      (as_ResponseWriter (writer_in_chain exampleWorld))
                      (request_in_chain (exampleRequest "GET" "/api/v1/status" ∅)
                         exampleWorld)
                      (world_in_chain (exampleRequest "GET" "/api/v1/status" ∅)
                         exampleWorld)))
              (AString "boom"))
    as (Hlogs & Hstatus & Hcode);
    [discriminate | reflexivity | reflexivity | reflexivity |].
  split.
  - rewrite Hcode by reflexivity. vm_compute. reflexivity.
  - eexists. split; [| exact Hstatus]. rewrite Hlogs. reflexivity.
Defined.

Lemma recovered_reply_headers_witness :
  header_Get
    (Result_Header (response (snd (chain (H := exampleRuntime) testLogger
       typed_then_panic recorder
       (exampleRequest "GET" "/api/v1/status" ∅) exampleWorld))))
    "Content-Type" = "text/plain; charset=utf-8".
Proof.
  apply (@recovered_reply_headers exampleRuntime testLogger typed_then_panic
           (exampleRequest "GET" "/api/v1/status" ∅) exampleWorld
           (snd (typed_then_panic
                   (as_ResponseWriter (writer_in_chain exampleWorld))
                   (request_in_chain (exampleRequest "GET" "/api/v1/status" ∅)
                      exampleWorld)
                   (world_in_chain (exampleRequest "GET" "/api/v1/status" ∅)
                      exampleWorld)))
           (AError "nil map"));
    [discriminate | reflexivity | reflexivity | reflexivity].
Defined.

(** ** Logging and the logger's level *)

Lemma parseLogLevel_cases (lvl : string) :
  (lvl = "debug" /\ parseLogLevel lvl = DebugLevel) \/
  (lvl = "warn" /\ parseLogLevel lvl = WarnLevel) \/
  (lvl = "error" /\ parseLogLevel lvl = ErrorLevel) \/
  (lvl <> "debug" /\ lvl <> "warn" /\ lvl <> "error" /\
   parseLogLevel lvl = InfoLevel).
Proof.
  unfold parseLogLevel.
  destruct (String.eqb_spec lvl "debug") as [-> | Hd]; [left; split; reflexivity |].
  destruct (String.eqb_spec lvl "warn") as [-> | Hw];
    [right; left; split; reflexivity |].
  destruct (String.eqb_spec lvl "error") as [-> | He];
    [right; right; left; split; reflexivity |].
  right; right; right. repeat split; assumption.
Qed.

Lemma NewLogger_min_level (lvl env : string) :
  min_level (NewLogger lvl env) = parseLogLevel lvl.
Proof. unfold NewLogger. destruct (String.eqb env "production"); reflexivity. Qed.

(** X4: which entries a logger built by [NewLogger] lets through depends
    on the level text alone, compared exactly: error entries always,
    warnings unless the level is error, info entries unless it is warn
    or error (so those two levels silence the request log), debug
    entries only for debug.  Every other text, the empty one and
    upper-case spellings included, means info. *)
Theorem NewLogger_level_filter (lvl env : string) :
  Enabled (NewLogger lvl env) ErrorLevel = true /\
  (Enabled (NewLogger lvl env) WarnLevel = true <-> lvl <> "error") /\
  (Enabled (NewLogger lvl env) InfoLevel = true <-> lvl <> "warn" /\ lvl <> "error") /\
  (Enabled (NewLogger lvl env) DebugLevel = true <-> lvl = "debug") /\
  (lvl <> "debug" -> lvl <> "warn" -> lvl <> "error" ->
     min_level (NewLogger lvl env) = InfoLevel).
Proof.
  unfold Enabled. rewrite NewLogger_min_level.
  destruct (parseLogLevel_cases lvl)
    as [[-> Hl] | [[-> Hl] | [[-> Hl] | (Hd & Hw & He & Hl)]]];
    rewrite Hl; cbn [level_rank Z.leb Z.compare];
    repeat split; try reflexivity; try discriminate; try congruence;
    try (intros; congruence); try (intros [? ?]; congruence).
Qed.

Lemma NewLogger_level_filter_witness :
  min_level (NewLogger "INFO" "production") = InfoLevel.
Proof.
  apply (NewLogger_level_filter "INFO" "production"); discriminate.
Defined.

Section LoggingFacts.

Context `{Runtime}.

Lemma do_ops_wrapped (l : nat) (ops : list WriterOp) :
  Forall valid_code ops ->
  forall (s : World) (c0 : Z),
    statusCodes s !! l = Some c0 ->
    exists s',
      do_ops (as_ResponseWriter {| ResponseWriter_ := recorder; statusCode_at := l |})
        ops s = (Returned tt, s') /\
      statusCodes s' !! l = Some (last_code ops c0) /\
      logs s' = logs s /\ clock s' = clock s /\
      Code (response s')
        = (if wroteHeader (response s) then Code (response s)
           else sent_code ops (Code (response s))).
Proof.
  induction 1 as [| o rest Hvalid _ IH]; intros s c0 Hc0.
  - exists s. cbn [do_ops last_code sent_code]. repeat split; try assumption.
    destruct (wroteHeader (response s)); reflexivity.
  - cbn [do_ops]. unfold bind.
    destruct o as [key value | code | c]; cbn [do_op last_code sent_code].
    + unfold as_ResponseWriter, recorder, modify. world_simpl.
      destruct (IH (set_response
                      (upd_HeaderMap (header_Set key value) (response s)) s) c0 Hc0)
        as (s' & Hrun & Hst & Hlogs & Hclock & Hcode).
      exists s'. split; [exact Hrun |]. repeat split; assumption.
    + cbn [valid_code] in Hvalid.
      assert (Hok : (code <? 100) || (999 <? code) = false)
        by (apply orb_false_iff; split; apply Z.ltb_ge; lia).
      unfold as_ResponseWriter, responseWriter_WriteHeader, recorder,
        rec_WriteHeader, checkWriteHeaderCode, bind, gets, modify, ret.
      world_simpl. rewrite Hok.
      destruct (wroteHeader (response s)) eqn:Hw; world_simpl.
      * edestruct IH as (s' & Hrun & Hst & Hlogs & Hclock & Hcode);
          [| exists s'; split; [exact Hrun |]].
        { world_simpl. apply lookup_insert_eq. }
        world_simpl_in Hcode. rewrite Hw in Hcode.
        repeat split; assumption.
      * edestruct IH as (s' & Hrun & Hst & Hlogs & Hclock & Hcode);
          [| exists s'; split; [exact Hrun |]].
        { world_simpl. apply lookup_insert_eq. }
        world_simpl_in Hcode. repeat split; assumption.
    + unfold as_ResponseWriter, recorder, rec_Write, rec_WriteHeader,
        checkWriteHeaderCode, bind, gets, modify, ret.
      world_simpl.
      destruct (wroteHeader (response s)) eqn:Hw; world_simpl.
      * edestruct IH as (s' & Hrun & Hst & Hlogs & Hclock & Hcode);
          [| exists s'; split; [exact Hrun |]].
        { world_simpl. exact Hc0. }
        world_simpl_in Hcode. rewrite Hw in Hcode.
        repeat split; assumption.
      * edestruct IH as (s' & Hrun & Hst & Hlogs & Hclock & Hcode);
          [| exists s'; split; [exact Hrun |]].
        { world_simpl. exact Hc0. }
        world_simpl_in Hcode. repeat split; assumption.
Qed.

(** X5: [Logging] reports the code of the last [WriteHeader] call (200
    if there was none), while the status that goes out is fixed by the
    first write: the first [WriteHeader] code, or 200 if a [Write] came
    first.  For a handler that only makes writer calls with valid codes,
    on a response not yet begun, the two are as said; they differ as
    soon as the handler calls [WriteHeader] after a [Write] or twice
    with different codes. *)
Theorem Logging_reports_last_code (logger : Logger) (ops : list WriterOp)
    (r : Request) (s : World) :
  Forall valid_code ops ->
  wroteHeader (response s) = false ->
  Enabled logger InfoLevel = true ->
  let out := Logging logger (scripted ops) recorder r s in
  fst out = Returned tt /\
  Code (response (snd out)) = sent_code ops (Code (response s)) /\
  logs (snd out) = logs s ++ [completion_entry r (last_code ops 200) 0].
Proof.
  intros Hvalid Hw Hinfo out. subst out.
  destruct (do_ops_wrapped (fresh (dom (statusCodes s))) ops Hvalid
              (set_statusCodes
                 (<[fresh (dom (statusCodes s)) := StatusOK]> (statusCodes s)) s)
              200)
    as (s' & Hrun & Hst & Hlogs & Hclock & Hcode).
  { world_simpl. apply lookup_insert_eq. }
  world_simpl_in Hcode. rewrite Hw in Hcode.
  world_simpl_in Hlogs. world_simpl_in Hclock.
  assert (Hall : Logging logger (scripted ops) recorder r s =
            (Returned tt,
             set_logs (logs s ++ [completion_entry r (last_code ops 200) 0]) s')).
  { unfold Logging, scripted, Logging_completed, logger_Info, log, time_Since,
      statusCode, time_Now, newResponseWriter, bind, gets, modify.
    cbv beta iota. rewrite Hrun. cbv beta iota. cbn [statusCode_at].
    rewrite Hinfo, Hst, Hclock, Z.sub_diag, Hlogs. reflexivity. }
  rewrite Hall. cbn [fst snd]. world_simpl.
  repeat split; [exact Hcode].
Qed.

(** X6: the order of [Logging] and [Recovery] decides whether a request
    that panics leaves a completion entry.  [Logging] has no deferred
    call, so a panic of the handler it wraps leaves it at once, without
    an entry.  With [Recovery] outside [Logging] the log ends with the
    panic entry; with [Logging] outside [Recovery], as in [chain], the
    completion entry follows it. *)
Theorem Logging_must_wrap_Recovery (logger : Logger) (next : Handler)
    (r : Request) (s s2 : World) (v : any) :
  next (as_ResponseWriter {| ResponseWriter_ := recorder;
                             statusCode_at := fresh (dom (statusCodes s)) |}) r
       (snd (newResponseWriter recorder s)) = (Panicked v, s2) ->
  Enabled logger ErrorLevel = true ->
  Enabled logger InfoLevel = true ->
  Logging logger next recorder r s = (Panicked v, s2) /\
  logs (snd (Recovery logger (Logging logger next) recorder r s))
    = logs s2 ++ [panic_entry (GetRequestID (ReqContext r)) (URL_Path r) v] /\
  logs (snd (Logging logger (Recovery logger next) recorder r s))
    = logs s2 ++ [panic_entry (GetRequestID (ReqContext r)) (URL_Path r) v;
                  completion_entry r 500 (clock s2 - clock s)].
Proof.
  intros Hnext Herr Hinfo. cbn [newResponseWriter snd] in Hnext.
  assert (Hlog : Logging logger next recorder r s = (Panicked v, s2)).
  { unfold Logging, time_Now, newResponseWriter, bind, gets.
    cbv beta iota. rewrite Hnext. reflexivity. }
  split; [exact Hlog |]. split.
  - unfold Recovery, defer_recover. rewrite Hlog.
    unfold Recovery_deferred, logger_Error, log. rewrite Herr.
    unfold bind at 1. unfold modify at 1.
    rewrite http_Error_recorder by (unfold StatusInternalServerError; lia).
    reflexivity.
  - unfold Logging, Recovery, defer_recover, time_Now, newResponseWriter.
    unfold bind at 1 2 3. unfold gets at 1. cbv beta iota. rewrite Hnext.
    unfold Recovery_deferred, logger_Error, log. rewrite Herr.
    unfold http_Error, Logging_completed, logger_Info, log, completion_entry.
    unfold as_ResponseWriter, responseWriter_WriteHeader,
      recorder, rec_Write, rec_WriteHeader, checkWriteHeaderCode, statusCode,
      time_Since.
    world_simpl. unfold bind, gets, modify, ret. world_simpl.
    rewrite Hinfo.
    destruct (wroteHeader (response s2)) eqn:Hw; world_simpl; rewrite ?Hw;
      world_simpl; rewrite ?Hw; world_simpl; rewrite lookup_insert_eq;
      cbn [default panic_entry]; rewrite <- app_assoc; reflexivity.
Qed.

End LoggingFacts.

Lemma Logging_reports_last_code_witness :
  let out := Logging testLogger
               (scripted [OpWrite (Bytes "hello"); OpWriteHeader 404]) recorder
               (exampleRequest "GET" "/missing" ∅) exampleWorld in
  Code (response (snd out)) = 200 /\
  logs (snd out)
    = [completion_entry (exampleRequest "GET" "/missing" ∅) 404 0].
Proof.
  destruct (@Logging_reports_last_code testLogger
              [OpWrite (Bytes "hello"); OpWriteHeader 404]
              (exampleRequest "GET" "/missing" ∅) exampleWorld)
    as (_ & Hcode & Hlogs).
  - repeat constructor; cbn; lia.
  - reflexivity.
  - reflexivity.
  - cbv zeta. rewrite Hcode, Hlogs. split; reflexivity.
Defined.

Lemma Logging_must_wrap_Recovery_witness :
  fst (Logging testLogger panic_at_once recorder
         (exampleRequest "GET" "/api/v1/status" ∅) exampleWorld)
    = Panicked (AError "nil map").
Proof.
  destruct (@Logging_must_wrap_Recovery exampleRuntime testLogger panic_at_once
              (exampleRequest "GET" "/api/v1/status" ∅) exampleWorld
              (snd (newResponseWriter recorder exampleWorld))
              (AError "nil map")) as (Hlog & _);
    [reflexivity | reflexivity | reflexivity |].
  rewrite Hlog. reflexivity.
Defined.

(** ** Pre-flight requests through the whole chain *)

Section PreflightFacts.

Context `{Runtime}.

(** X7: an OPTIONS request through the chain, on a response not yet
    begun, is answered 204 with an empty body by [CORS] without the
    router being called; the reply carries the X-Request-ID and the
    three CORS headers on top of the headers already on the map; no
    error entry is logged, and the completion entry, if info is let
    through, reports status 204. *)
Theorem chain_preflight_reply (logger : Logger) (mux : Handler) (r : Request)
    (s : World) :
  Method r = MethodOptions ->
  wroteHeader (response s) = false ->
  Body (response s) = [] ->
  let out := chain logger mux recorder r s in
  fst out = Returned tt /\
  Code (response (snd out)) = 204 /\
  Body (response (snd out)) = [] /\
  Result_Header (response (snd out))
    = cors_headers (header_Set "X-Request-ID" (request_id r s)
                      (HeaderMap (response s))) /\
  errors (logs (snd out)) = errors (logs s) /\
  (Enabled logger InfoLevel = true ->
     logs (snd out) = logs s ++ [completion_entry (request_in_chain r s) 204 0]) /\
  (forall mux', chain logger mux' recorder r s = out).
Proof.
  intros Hm Hw Hb out.
  assert (Hrun : chain logger mux recorder r s =
            (Returned tt,
             logged logger (completion_entry (request_in_chain r s) 204 0)
               (set_response
                  {| Code := 204;
                     HeaderMap := HeaderMap (response (world_in_chain r s));
                     Body := [];
                     wroteHeader := true;
                     snapHeader := Some (HeaderMap (response (world_in_chain r s))) |}
                  (set_statusCodes
                     (<[fresh (dom (statusCodes s)) := 204]>
                        (statusCodes (world_in_chain r s)))
                     (world_in_chain r s))))).
  { apply String.eqb_eq in Hm.
    unfold chain, RequestID, Logging, Recovery, CORS, defer_recover,
      Recovery_deferred, Logging_completed, logger_Info, log, logged,
      completion_entry, request_in_chain, world_in_chain, request_id.
    destruct (String.eqb (header_Get (ReqHeader r) "X-Request-ID") EmptyString) eqn:Hid;
      unfold uuid_New, rand_Read16, time_Now, time_Since, statusCode,
        newResponseWriter, as_ResponseWriter, responseWriter_WriteHeader,
        recorder, rec_WriteHeader, checkWriteHeaderCode, bind, gets, modify, ret;
      world_simpl; cbn [WithContext Method ReqContext URL_Path RemoteAddr];
      rewrite Hm; world_simpl; rewrite Hw; world_simpl;
      rewrite !lookup_insert_eq; cbn [default entry_level];
      rewrite Z.sub_diag, Hb;
      destruct (Enabled logger InfoLevel); reflexivity. }
  assert (Hresp : forall lg e s0, response (logged lg e s0) = response s0)
    by (intros lg e s0; unfold logged; destruct (Enabled lg _); reflexivity).
  split; [subst out; rewrite Hrun; reflexivity |].
  split; [subst out; rewrite Hrun; cbn [snd]; rewrite Hresp; reflexivity |].
  split; [subst out; rewrite Hrun; cbn [snd]; rewrite Hresp; reflexivity |].
  split.
  { subst out. rewrite Hrun. cbn [snd]. rewrite Hresp. world_simpl.
    cbn [Result_Header snapHeader]. unfold world_in_chain. world_simpl.
    destruct (String.eqb (header_Get (ReqHeader r) "X-Request-ID") EmptyString);
      reflexivity. }
  split.
  { subst out. rewrite Hrun. cbn [snd].
    rewrite errors_logged_info by reflexivity. world_simpl.
    unfold world_in_chain. world_simpl.
    destruct (String.eqb (header_Get (ReqHeader r) "X-Request-ID") EmptyString);
      reflexivity. }
  split.
  { intros Hinfo. subst out. rewrite Hrun. cbn [snd]. unfold logged.
    cbn [entry_level completion_entry]. rewrite Hinfo. world_simpl.
    unfold world_in_chain. world_simpl.
    destruct (String.eqb (header_Get (ReqHeader r) "X-Request-ID") EmptyString);
      reflexivity. }
  intros mux'. subst out. apply chain_preflight_skips_mux. exact Hm.
Qed.

End PreflightFacts.

Lemma chain_preflight_reply_witness :
  Code (response (snd (chain (H := exampleRuntime) testLogger partial_then_panic
                         recorder (exampleRequest "OPTIONS" "/readyz" ∅)
                         exampleWorld))) = 204.
Proof.
  apply (@chain_preflight_reply exampleRuntime testLogger partial_then_panic
           (exampleRequest "OPTIONS" "/readyz" ∅) exampleWorld);
    reflexivity.
Defined.

(** ** Contexts, requests and headers *)

Lemma Value_other_key (ctx : Context) (k k' : ctxKey) (v : any) :
  ctxKey_eqb k' k = false -> Value (WithValue ctx k' v) k = Value ctx k.
Proof. intros Hne. cbn [WithValue Value]. rewrite Hne. reflexivity. Qed.

(** X8: the correlation id lives under a key of the package's own type.
    A value stored under any key of another package, whatever its name,
    neither hides nor replaces the id; storing an id again replaces the
    earlier one; and a value under the package's key that is not a
    string reads as unknown. *)
Theorem GetRequestID_key_is_private (ctx : Context) (name id : string)
    (v : any) (n : Z) :
  GetRequestID (WithValue ctx (ForeignKey name) v) = GetRequestID ctx /\
  GetRequestID (WithValue (WithValue ctx requestIDKey (AString id))
                  (ForeignKey name) v) = id /\
  GetRequestID (WithValue (WithValue ctx requestIDKey v) requestIDKey (AString id))
    = id /\
  GetRequestID (WithValue ctx requestIDKey (AInt n)) = "unknown" /\
  (n <> 0 ->
   GetRequestID (WithValue ctx (MiddlewareKey n) v) = GetRequestID ctx).
Proof.
  repeat split; try reflexivity.
  intros Hn. unfold GetRequestID. rewrite Value_other_key; [reflexivity |].
  cbn [ctxKey_eqb requestIDKey]. apply Z.eqb_neq. exact Hn.
Qed.

Lemma GetRequestID_key_is_private_witness :
  GetRequestID (WithValue Background (MiddlewareKey 1) (AString "other"))
    = "unknown".
Proof.
  destruct (GetRequestID_key_is_private Background "k" "id" (AString "other") 1)
    as (_ & _ & _ & _ & Hother).
  rewrite Hother by discriminate. reflexivity.
Defined.

(** X9: [RequestID] changes nothing of the request but its context, and
    hides nothing in the context: the request it calls the next handler
    with has the same method, path, headers and remote address, and
    every value stored under another key is still found. *)
Theorem RequestID_forwards_request (r : Request) (s : World) (k : ctxKey) :
  let r' := request_in_chain r s in
  (forall next w,
     exists s',
       RequestID next w r s =
         (Header_update w (header_Set "X-Request-ID" (request_id r s)) ;;
          next w r') s') /\
  Method r' = Method r /\ URL_Path r' = URL_Path r /\
  ReqHeader r' = ReqHeader r /\ RemoteAddr r' = RemoteAddr r /\
  UserAgent r' = UserAgent r /\
  (k <> requestIDKey -> Value (ReqContext r') k = Value (ReqContext r) k).
Proof.
  cbv zeta. split.
  { intros next w. unfold RequestID, request_in_chain, request_id.
    destruct (String.eqb (header_Get (ReqHeader r) "X-Request-ID") EmptyString);
      eexists; reflexivity. }
  repeat split. intros Hk.
  unfold request_in_chain. cbn [WithContext ReqContext].
  apply Value_other_key.
  destruct k as [n | name]; cbn [ctxKey_eqb requestIDKey]; [| reflexivity].
  apply Z.eqb_neq. intros Heq. apply Hk. unfold requestIDKey. congruence.
Qed.

Lemma RequestID_forwards_request_witness :
  Value (ReqContext
           (request_in_chain
              {| Method := "GET"; URL_Path := "/"; ReqHeader := ∅;
                 RemoteAddr := "10.0.0.7:40312";
                 ReqContext := WithValue Background (ForeignKey "user") (AString "ann") |}
              exampleWorld))
        (ForeignKey "user") = Some (AString "ann").
Proof.
  destruct (RequestID_forwards_request
              {| Method := "GET"; URL_Path := "/"; ReqHeader := ∅;
                 RemoteAddr := "10.0.0.7:40312";
                 ReqContext := WithValue Background (ForeignKey "user") (AString "ann") |}
              exampleWorld (ForeignKey "user"))
    as (_ & _ & _ & _ & _ & _ & Hctx).
  rewrite Hctx by discriminate. reflexivity.
Defined.

(** X10: [CORS] replaces whatever values the three headers had, each by
    its single fixed value, and touches no other header. *)
Theorem CORS_sets_only_its_headers (h : Header) (key : string) :
  cors_headers h !! "Access-Control-Allow-Origin" = Some ["*"] /\
  cors_headers h !! "Access-Control-Allow-Methods" = Some ["GET, POST, OPTIONS"] /\
  cors_headers h !! "Access-Control-Allow-Headers"
    = Some ["Content-Type, X-Request-ID"] /\
  (key <> "Access-Control-Allow-Origin" ->
   key <> "Access-Control-Allow-Methods" ->
   key <> "Access-Control-Allow-Headers" ->
   cors_headers h !! key = h !! key) /\
  (forall next r s,
     Method r <> MethodOptions ->
     CORS next recorder r s =
       next recorder r (set_response (upd_HeaderMap cors_headers (response s)) s)).
Proof.
  unfold cors_headers, header_Set. repeat split.
  - rewrite !lookup_insert_ne by discriminate. apply lookup_insert_eq.
  - rewrite lookup_insert_ne by discriminate. apply lookup_insert_eq.
  - apply lookup_insert_eq.
  - intros H1 H2 H3. rewrite !lookup_insert_ne by congruence. reflexivity.
  - intros next r s Hm. apply String.eqb_neq in Hm.
    unfold CORS. rewrite Hm. reflexivity.
Qed.

Lemma CORS_sets_only_its_headers_witness :
  cors_headers {[ "Access-Control-Allow-Origin" := ["https://a.example"; "https://b.example"];
                  "Vary" := ["Origin"] ]} !! "Vary" = Some ["Origin"].
Proof.
  destruct (CORS_sets_only_its_headers
              {[ "Access-Control-Allow-Origin" := ["https://a.example"; "https://b.example"];
                 "Vary" := ["Origin"] ]} "Vary") as (_ & _ & _ & Hother & _).
  rewrite Hother by discriminate. vm_compute. reflexivity.
Defined.

(** ** The probes and the status endpoint *)

Section ProbeFacts.

Context `{Runtime} `{RuntimeStats}.

(** X11: the liveness, readiness and info handlers only write their
    response: they log nothing, store to no atomic cell, and leave the
    clock, the random source and every other part of the world as it
    was. *)
Theorem probes_only_write_the_response (h : HealthHandler) (a : APIHandler)
    (r : Request) (s : World) :
  snd (serve (Liveness h) r s)
    = set_response (response (snd (serve (Liveness h) r s))) s /\
  snd (serve (Readiness h) r s)
    = set_response (response (snd (serve (Readiness h) r s))) s /\
  snd (serve (Info a) r s)
    = set_response (response (snd (serve (Info a) r s))) s.
Proof.
  repeat split.
  unfold serve, Readiness, json_Encode, atomic_Load, time_Since, time_Now,
    recorder, rec_Write, rec_WriteHeader, checkWriteHeaderCode, bind, gets,
    modify, ret.
  world_simpl.
  destruct (default false (atomics s !! hh_ready h)); reflexivity.
Qed.

(** X12: the readiness reply is JSON, names exactly one check, server,
    whose status is pass when the flag is true and fail otherwise, in
    step with the HTTP status, and reports as uptime the time since the
    handler's start time; for a handler built by [NewHealthHandler]
    that is the time since it was built. *)
Theorem Readiness_check_mirrors_flag (logger : Logger) (cfg : Config)
    (s0 : World) (h : HealthHandler) (r : Request) (s : World) :
  (let isReady := default false (atomics s !! hh_ready h) in
   let reply := response (snd (serve (Readiness h) r s)) in
   body_field "checks" reply
     = Some (JArray [JObject [("name", JString "server");
                              ("status", JString (boolToStatus isReady))]]) /\
   (boolToStatus isReady = "pass" <-> Code reply = 200) /\
   (boolToStatus isReady = "fail" <-> Code reply = 503) /\
   header_Get (Result_Header reply) "Content-Type" = "application/json" /\
   body_field "uptime" reply
     = Some (JString (Duration_Round_Second_String (clock s - hh_startTime h)))) /\
  (exists built s1,
     NewHealthHandler logger cfg s0 = (Returned built, s1) /\
     clock s1 = clock s0 /\
     body_field "uptime" (response (snd (serve (Readiness built) r s)))
       = Some (JString (Duration_Round_Second_String (clock s - clock s0)))).
Proof.
  split.
  - cbv zeta.
    unfold serve, Readiness, json_Encode, atomic_Load, time_Since, time_Now,
      recorder, rec_Write, rec_WriteHeader, checkWriteHeaderCode, bind, gets,
      modify, ret.
    world_simpl.
    destruct (default false (atomics s !! hh_ready h)); cbn [negb]; world_simpl;
      repeat split; try reflexivity; try discriminate.
  - unfold NewHealthHandler, time_Now, atomic_New, atomic_Store, bind, gets,
      modify, ret.
    eexists. eexists. split; [reflexivity |]. split; [reflexivity |].
    unfold serve, Readiness, json_Encode, atomic_Load, time_Since, time_Now,
      recorder, rec_Write, rec_WriteHeader, checkWriteHeaderCode, bind, gets,
      modify, ret.
    world_simpl. cbn [hh_ready hh_startTime].
    match goal with
    | |- context [default false ?x] => destruct (default false x)
    end; reflexivity.
Qed.

Lemma health_call_flag (h : HealthHandler) (c : HealthCall) (s : World) (b : bool) :
  atomics s !! hh_ready h = Some b ->
  fst (health_call h c s) = Returned tt /\
  atomics (snd (health_call h c s)) !! hh_ready h
    = Some (b && negb (is_SetNotReady c)) /\
  history (snd (health_call h c s))
    = history s ++ (if is_SetNotReady c then [Stored (hh_ready h) false] else []).
Proof.
  intros Hflag. destruct c as [| r | r]; cbn [health_call is_SetNotReady negb].
  - destruct (SetNotReady_run h s) as (Hret & Hat & Hhist).
    split; [exact Hret |]. rewrite Hat, Hhist, andb_false_r.
    split; [apply lookup_insert_eq | reflexivity].
  - rewrite Liveness_run, andb_true_r, app_nil_r. repeat split. exact Hflag.
  - destruct (Readiness_run h r s) as (Hret & _ & _ & Hat & Hhist).
    rewrite Hat, Hhist, andb_true_r, app_nil_r. repeat split; assumption.
Qed.

(** X13: after any sequence of calls of a health handler's methods the
    flag is true exactly when it was true before and [SetNotReady] was
    not among the calls; each [SetNotReady] stores false once more, so
    calling it again changes nothing but the history and the log. *)
Theorem health_calls_flag (h : HealthHandler) (cs : list HealthCall) :
  forall (s : World) (b : bool),
    atomics s !! hh_ready h = Some b ->
    fst (health_calls h cs s) = Returned tt /\
    atomics (snd (health_calls h cs s)) !! hh_ready h
      = Some (b && negb (existsb is_SetNotReady cs)) /\
    history (snd (health_calls h cs s))
      = history s ++
        repeat (Stored (hh_ready h) false)
          (length (List.filter is_SetNotReady cs)).
Proof.
  induction cs as [| c rest IH]; intros s b Hflag.
  - cbn. rewrite andb_true_r, app_nil_r. repeat split. exact Hflag.
  - cbn [health_calls existsb List.filter]. unfold bind.
    destruct (health_call_flag h c s b Hflag) as (Hret & Hflag' & Hhist).
    destruct (health_call h c s) as [o s1]. cbn [fst snd] in Hret, Hflag', Hhist.
    subst o.
    destruct (IH s1 _ Hflag') as (Hret' & Hflag'' & Hhist').
    split; [exact Hret' |]. split.
    + rewrite Hflag''. f_equal.
      destruct (is_SetNotReady c), b, (existsb is_SetNotReady rest); reflexivity.
    + rewrite Hhist', Hhist. destruct (is_SetNotReady c); cbn [length repeat].
      * rewrite <- app_assoc. reflexivity.
      * rewrite app_nil_r. reflexivity.
Qed.

(** X14: the status handler always answers 200 with status operational,
    the goroutine count as a number and the allocated memory rendered
    by [formatBytes]; it writes one debug entry with the same two
    readings when the logger lets debug through and none otherwise, and
    touches neither the atomic cells nor the history. *)
Theorem Status_reports_readings (a : APIHandler) (r : Request) (s : World) :
  let s0 := set_response NewRecorder s in
  let out := serve (Status a) r s in
  let reply := response (snd out) in
  fst out = Returned tt /\
  Code reply = 200 /\
  body_field "status" reply = Some (JString "operational") /\
  body_field "goroutines" reply = Some (JNumber (runtime_NumGoroutine s0)) /\
  body_field "memory_alloc_mb" reply
    = Some (JString (formatBytes (memStats_Alloc s0))) /\
  logs (snd out)
    = logs s ++
      (if Enabled (ah_logger a) DebugLevel
       then [{| entry_level := DebugLevel; entry_msg := "status check";
                entry_fields :=
                  [("goroutines", FInt (runtime_NumGoroutine s0));
                   ("memory", FString (formatBytes (memStats_Alloc s0)))] |}]
       else []) /\
  atomics (snd out) = atomics s /\ history (snd out) = history s.
Proof.
  cbv zeta.
  unfold serve, Status, json_Encode, log, time_Since, time_Now,
    recorder, rec_Write, rec_WriteHeader, checkWriteHeaderCode, bind, gets,
    modify, ret.
  world_simpl.
  destruct (Enabled (ah_logger a) DebugLevel); world_simpl;
    rewrite ?app_nil_r; repeat split; reflexivity.
Qed.

End ProbeFacts.

Lemma health_calls_flag_witness :
  atomics (snd (@health_calls exampleRuntime testHealthHandler
                  [CallReadiness (exampleRequest "GET" "/readyz" ∅);
                   CallLiveness (exampleRequest "GET" "/healthz" ∅)]
                  (worldWithFlag true))) !! 0%nat = Some true.
Proof.
  apply (@health_calls_flag exampleRuntime testHealthHandler
           [CallReadiness (exampleRequest "GET" "/readyz" ∅);
            CallLiveness (exampleRequest "GET" "/healthz" ∅)]
           (worldWithFlag true) true).
  vm_compute. reflexivity.
Defined.

(** ** Memory formatting, in general *)

Lemma two_digits_chars_nat (k : nat) :
  (k < 100)%nat ->
  two_digits (Z.of_nat k)
    = String (ascii_of_nat (48 + Z.to_nat (Z.of_nat k / 10)))
        (String (ascii_of_nat (48 + Z.to_nat (Z.of_nat k mod 10))) EmptyString).
Proof.
  intros Hk.
  do 100 (destruct k as [| k]; [vm_compute; reflexivity |]).
  lia.
Qed.

Lemma two_digits_chars (n : Z) :
  0 <= n < 100 ->
  two_digits n
    = String (ascii_of_nat (48 + Z.to_nat (n / 10)))
        (String (ascii_of_nat (48 + Z.to_nat (n mod 10))) EmptyString).
Proof.
  intros Hn. rewrite <- (Z2Nat.id n) by lia.
  apply two_digits_chars_nat. lia.
Qed.

(** X15: for a size that a float64 holds exactly, the text is the
    decimal writing of a whole number [c] of hundredths: the integer
    part of [c / 100], a point, then the tens digit and the units digit
    of [c mod 100] as the characters 0 to 9; and [c] is within half a
    hundredth of the size divided by 1048576. *)
Theorem formatBytes_rounds_to_nearest (b : Z) :
  0 <= b < 2 ^ 53 ->
  exists c,
    0 <= c /\
    formatBytes b
      = pretty (c / 100) +:+ "." +:+
        String (ascii_of_nat (48 + Z.to_nat (c mod 100 / 10)))
          (String (ascii_of_nat (48 + Z.to_nat ((c mod 100) mod 10))) EmptyString) /\
    Z.abs (100 * b - c * 1048576) <= 524288.
Proof.
  intros Hb. unfold formatBytes. rewrite float64_of_uint64_exact by exact Hb.
  unfold FormatFloat_f2.
  rewrite Z.shiftr_div_pow2 by lia. rewrite Z.land_ones by lia.
  change (2 ^ 20) with 1048576. change (Z.shiftl 1 (20 - 1)) with 524288.
  pose proof (Z.div_mod (b * 100) 1048576 ltac:(lia)) as Hdiv.
  pose proof (Z.mod_pos_bound (b * 100) 1048576 ltac:(lia)) as Hrem.
  assert (Hq : 0 <= b * 100 / 1048576) by (apply Z.div_pos; lia).
  set (q := b * 100 / 1048576) in *. set (rem := (b * 100) mod 1048576) in *.
  destruct ((524288 <? rem) || ((rem =? 524288) && Z.odd q)) eqn:Hup.
  - exists (q + 1). split; [lia |].
    split; [rewrite two_digits_chars by (apply Z.mod_pos_bound; lia); reflexivity |].
    apply orb_true_iff in Hup. destruct Hup as [Hgt | Heq].
    + apply Z.ltb_lt in Hgt. lia.
    + apply andb_true_iff in Heq. destruct Heq as [Heq _].
      apply Z.eqb_eq in Heq. lia.
  - exists q. split; [lia |].
    split; [rewrite two_digits_chars by (apply Z.mod_pos_bound; lia); reflexivity |].
    apply orb_false_iff in Hup. destruct Hup as [Hgt _].
    apply Z.ltb_ge in Hgt. lia.
Qed.

Lemma formatBytes_rounds_to_nearest_witness :
  exists c,
    formatBytes 1572864
      = pretty (c / 100) +:+ "." +:+
        String (ascii_of_nat (48 + Z.to_nat (c mod 100 / 10)))
          (String (ascii_of_nat (48 + Z.to_nat ((c mod 100) mod 10))) EmptyString) /\
    Z.abs (100 * 1572864 - c * 1048576) <= 524288.
Proof.
  destruct (formatBytes_rounds_to_nearest 1572864) as (c & _ & Hfmt & Hbound).
  - split; [lia | reflexivity].
  - exists c. split; assumption.
Defined.

Lemma formatBytes_whole_mebibytes_witness :
  formatBytes (512 * 1048576) = pretty 512 +:+ ".00".
Proof.
  apply (formatBytes_whole_mebibytes 512). split; [lia | reflexivity].
Defined.

(** ** Shutdown, as logged and as probed *)

Section ShutdownFacts.

Context `{Runtime}.

(** X17: a drain cut short is logged as one error-level entry, forced
    shutdown, carrying the server's error; a completed drain adds no
    error entry.  In both cases the log ends, when info is let through,
    with the entry server stopped gracefully. *)
Theorem shutdown_log_entries (app : App) (sig : Signal) (drained : option any)
    (s : World) :
  let out := shutdown app sig drained s in
  errors (logs (snd out))
    = errors (logs s) ++
      match drained with
      | Some e =>
          if Enabled (app_logger app) ErrorLevel
          then [{| entry_level := ErrorLevel; entry_msg := "forced shutdown";
                   entry_fields := [("error", FError e)] |}]
          else []
      | None => []
      end /\
  (Enabled (app_logger app) InfoLevel = true ->
     last (logs (snd out))
       = Some {| entry_level := InfoLevel;
                 entry_msg := "server stopped gracefully";
                 entry_fields := [] |}).
Proof.
  cbv zeta. unfold shutdown, SetNotReady, server_Shutdown, atomic_Store,
    logger_Info, logger_Error, log, bind, modify, ret.
  split.
  - destruct (Enabled (app_logger app) InfoLevel),
      (Enabled (hh_logger (app_healthHandler app)) InfoLevel),
      (Enabled (app_logger app) ErrorLevel), drained;
      world_simpl; rewrite ?errors_app;
      cbn [errors List.filter is_error entry_level];
      rewrite ?app_nil_r; reflexivity.
  - intros Hinfo. rewrite Hinfo.
    destruct (Enabled (hh_logger (app_healthHandler app)) InfoLevel),
      (Enabled (app_logger app) ErrorLevel), drained;
      world_simpl; apply last_snoc.
Qed.

(** X18: the probes follow the lifecycle.  Once [main] has built its
    handlers the readiness probe answers 200; after the shutdown
    sequence has run, for either signal and either drain result, it
    answers 503, while the liveness probe still answers 200. *)
Theorem probes_follow_lifecycle (env : Environ) (sig : Signal)
    (drained : option any) (r : Request) (s : World) :
  exists app s1,
    startup env s = (Returned app, s1) /\
    Code (response (snd (serve (Readiness (app_healthHandler app)) r s1))) = 200 /\
    let s2 := snd (shutdown app sig drained s1) in
    Code (response (snd (serve (Readiness (app_healthHandler app)) r s2))) = 503 /\
    Code (response (snd (serve (Liveness (app_healthHandler app)) r s2))) = 200.
Proof.
  assert (Hstart : exists app s1,
            startup env s = (Returned app, s1) /\
            atomics s1 !! hh_ready (app_healthHandler app) = Some true).
  { unfold startup, NewHealthHandler, NewAPIHandler, time_Now, atomic_New,
      atomic_Store, logger_Info, log, bind, gets, modify, ret.
    destruct (Enabled (NewLogger (LogLevel (Load env)) (Environment (Load env)))
                InfoLevel);
      eexists; eexists; (split; [reflexivity |]);
      world_simpl; cbn [app_healthHandler hh_ready]; apply lookup_insert_eq. }
  destruct Hstart as (app & s1 & Hrun & Hflag).
  exists app, s1. split; [exact Hrun |].
  destruct (Readiness_run (app_healthHandler app) r s1) as (_ & Hcode & _).
  rewrite Hflag in Hcode. split; [exact Hcode |]. cbv zeta.
  destruct (shutdown_run app sig drained s1) as (_ & _ & Hat).
  destruct (Readiness_run (app_healthHandler app) r (snd (shutdown app sig drained s1)))
    as (_ & Hcode' & _).
  rewrite Hat, lookup_insert_eq in Hcode'. split; [exact Hcode' |].
  rewrite Liveness_run. reflexivity.
Qed.

End ShutdownFacts.

(** ** Configuration, in general *)

Section LoadFacts.

Context `{Runtime}.

(** X19: [Load] reads nothing but its nine variables: two environments
    that agree on them give the same configuration. *)
Theorem Load_reads_only_its_keys (env1 env2 : Environ) :
  (forall key, In key config_keys -> env1 !! key = env2 !! key) ->
  Load env1 = Load env2.
Proof.
  intros Hsame. unfold Load, getEnv, getEnvInt, getEnvDuration.
  rewrite !(Hsame _) by (cbn [config_keys In]; tauto).
  reflexivity.
Qed.

(** X20: with none of the nine variables set, [Load] gives the
    defaults: platform-api 1.0.0 in development, port 9090, timeouts of
    5, 10, 120 and 30 seconds, level info. *)
Theorem Load_unset_gives_defaults (env : Environ) :
  (forall key, In key config_keys -> env !! key = None) ->
  Load env = defaultConfig.
Proof.
  intros Hunset. unfold Load, getEnv, getEnvInt, getEnvDuration.
  rewrite !(Hunset _) by (cbn [config_keys In]; tauto).
  reflexivity.
Qed.

(** X21: a variable that is set counts even when its value is empty.
    With all nine set to the empty text the three names and the log
    level are empty, not their defaults, while the port, which does not
    parse, is 9090, and so are the timeouts at their defaults when the
    parser rejects the empty text (as Go's does). *)
Theorem Load_set_but_empty (env : Environ) :
  (forall key, In key config_keys -> env !! key = Some EmptyString) ->
  time_ParseDuration EmptyString = None ->
  Load env =
    {| ServiceName := EmptyString; Version := EmptyString;
       Environment := EmptyString; Port := 9090;
       ReadTimeout := 5 * Second; WriteTimeout := 10 * Second;
       IdleTimeout := 120 * Second; ShutdownTimeout := 30 * Second;
       LogLevel := EmptyString |}.
Proof.
  intros Hset Hparse. unfold Load, getEnv, getEnvInt, getEnvDuration.
  rewrite !(Hset _) by (cbn [config_keys In]; tauto).
  rewrite Hparse. reflexivity.
Qed.

End LoadFacts.

Lemma Load_reads_only_its_keys_witness :
  @Load exampleRuntime {[ "PORT" := "8080"; "HOME" := "/root" ]}
    = @Load exampleRuntime {[ "PORT" := "8080"; "PATH" := "/usr/bin" ]}.
Proof.
  apply (@Load_reads_only_its_keys exampleRuntime).
  intros key Hin. cbn [config_keys In] in Hin.
  repeat (destruct Hin as [<- | Hin]; [vm_compute; reflexivity |]).
  contradiction.
Defined.

Lemma Load_unset_gives_defaults_witness :
  @Load exampleRuntime {[ "HOME" := "/root" ]} = defaultConfig.
Proof.
  apply (@Load_unset_gives_defaults exampleRuntime).
  intros key Hin. cbn [config_keys In] in Hin.
  repeat (destruct Hin as [<- | Hin]; [vm_compute; reflexivity |]).
  contradiction.
Defined.

Lemma Load_set_but_empty_witness :
  ServiceName
    (@Load exampleRuntime
       (list_to_map (map (fun key => (key, EmptyString)) config_keys)))
    = EmptyString.
Proof.
  rewrite (@Load_set_but_empty exampleRuntime
             (list_to_map (map (fun key => (key, EmptyString)) config_keys))).
  - reflexivity.
  - intros key Hin. cbn [config_keys In] in Hin.
    repeat (destruct Hin as [<- | Hin]; [vm_compute; reflexivity |]).
    contradiction.
  - reflexivity.
Defined.

(** ** The chart's names *)

Lemma trunc_length (c : nat) (s : string) : (String.length (trunc c s) <= c)%nat.
Proof.
  revert s. induction c as [| c IH]; intros s; [cbn; lia |].
  destruct s as [| a rest]; cbn [trunc String.length]; [lia |].
  specialize (IH rest). lia.
Qed.

Lemma trimSuffix_prefix (suffix s : string) :
  exists t, s = trimSuffix suffix s +:+ t.
Proof.
  induction s as [| a rest IH]; cbn [trimSuffix].
  - exists EmptyString. destruct (String.eqb EmptyString suffix); reflexivity.
  - destruct (String.eqb (String a rest) suffix).
    + exists (String a rest). reflexivity.
    + destruct IH as [t Ht]. exists t.
      change (String a rest = String a (trimSuffix suffix rest +:+ t)).
      f_equal. exact Ht.
Qed.

Lemma append_length (s t : string) :
  String.length (s +:+ t) = (String.length s + String.length t)%nat.
Proof.
  induction s as [| a s IH]; [reflexivity |].
  change (S (String.length (s +:+ t))
          = S (String.length s + String.length t)%nat).
  rewrite IH. reflexivity.
Qed.

Lemma trimSuffix_length (suffix s : string) :
  (String.length (trimSuffix suffix s) <= String.length s)%nat.
Proof.
  destruct (trimSuffix_prefix suffix s) as [t Ht].
  rewrite Ht at 2. rewrite append_length. lia.
Qed.

Lemma has_char_append (a : ascii) (s t : string) :
  has_char a (s +:+ t) = has_char a s || has_char a t.
Proof.
  induction s as [| b s IH]; [reflexivity |].
  change (Ascii.eqb b a || has_char a (s +:+ t)
          = (Ascii.eqb b a || has_char a s) || has_char a t).
  rewrite IH. apply orb_assoc.
Qed.

Lemma has_char_trunc (a : ascii) (c : nat) (s : string) :
  has_char a s = false -> has_char a (trunc c s) = false.
Proof.
  revert s. induction c as [| c IH]; intros s Hs; [reflexivity |].
  destruct s as [| b rest]; [reflexivity |].
  cbn [trunc has_char] in *. apply orb_false_iff in Hs. destruct Hs as [Hb Hrest].
  rewrite Hb. cbn [orb]. apply IH. exact Hrest.
Qed.

Lemma has_char_trimSuffix (a : ascii) (suffix s : string) :
  has_char a s = false -> has_char a (trimSuffix suffix s) = false.
Proof.
  intros Hs. destruct (trimSuffix_prefix suffix s) as [t Ht].
  rewrite Ht, has_char_append in Hs. apply orb_false_iff in Hs. tauto.
Qed.

Lemma has_char_replace (old new : ascii) (s : string) :
  old <> new -> has_char old (replace_char old new s) = false.
Proof.
  intros Hne. induction s as [| b rest IH]; [reflexivity |].
  cbn [replace_char has_char]. rewrite IH, orb_false_r.
  destruct (Ascii.eqb_spec b old) as [-> | Hb].
  - apply Ascii.eqb_neq. congruence.
  - apply Ascii.eqb_neq. exact Hb.
Qed.

(** X22: the three names the chart's helpers produce (name, full name,
    chart label) are never longer than 63 characters, whatever the
    chart name, version, release name and overrides. *)
Theorem chart_names_fit_63 (chart : Chart) (release_Name : string)
    (values : HelmValues) :
  (String.length (platform_api_name chart values) <= 63)%nat /\
  (String.length (platform_api_fullname chart release_Name values) <= 63)%nat /\
  (String.length (platform_api_chart chart) <= 63)%nat.
Proof.
  assert (Hfit : forall s, (String.length (trimSuffix "-" (trunc 63 s)) <= 63)%nat).
  { intros s. pose proof (trimSuffix_length "-" (trunc 63 s)).
    pose proof (trunc_length 63 s). lia. }
  unfold platform_api_name, platform_api_fullname, platform_api_chart.
  repeat split; try apply Hfit.
  destruct (negb _); [apply Hfit |]. destruct (contains _ _); apply Hfit.
Qed.

(** X23: the chart label never contains a plus sign: every one in the
    chart's name or version is replaced by an underscore before the
    label is cut to length. *)
Theorem chart_label_has_no_plus (chart : Chart) :
  has_char "+" (platform_api_chart chart) = false.
Proof.
  unfold platform_api_chart.
  apply has_char_trimSuffix, has_char_trunc, has_char_replace. discriminate.
Qed.

Lemma Readiness_check_mirrors_flag_witness :
  body_field "checks"
    (response (snd (serve (@Readiness exampleRuntime testHealthHandler)
                      (exampleRequest "GET" "/readyz" ∅) (worldWithFlag false))))
    = Some (JArray [JObject [("name", JString "server");
                             ("status", JString "fail")]]).
Proof.
  destruct (@Readiness_check_mirrors_flag exampleRuntime testLogger testConfig
              exampleWorld testHealthHandler
              (exampleRequest "GET" "/readyz" ∅) (worldWithFlag false))
    as ((Hchecks & _) & _).
  rewrite Hchecks. vm_compute. reflexivity.
Defined.

Lemma shutdown_log_entries_witness :
  last (logs (snd (shutdown
                     {| app_cfg := testConfig; app_logger := testLogger;
                        app_healthHandler := testHealthHandler;
                        app_apiHandler := testAPIHandler |}
                     SIGTERM (Some (AError "context deadline exceeded"))
                     (worldWithFlag true))))
    = Some {| entry_level := InfoLevel; entry_msg := "server stopped gracefully";
              entry_fields := [] |}.
Proof.
  apply (shutdown_log_entries
           {| app_cfg := testConfig; app_logger := testLogger;
              app_healthHandler := testHealthHandler;
              app_apiHandler := testAPIHandler |}
           SIGTERM (Some (AError "context deadline exceeded"))
           (worldWithFlag true)).
  reflexivity.
Defined.
